(** * jsonrpc2.mixin: the JSON-RPC 2 request handler mixin

    A shallow embedding of [src/jsonrpc2/mixin.py] (Python 2) and the
    properties of its validation, dispatch and error-mapping pipeline.

    Python values are the ones [simplejson] produces and consumes; the
    interpreter's introspection tables and the [simplejson] codec are
    collaborators of the module and are taken as a [Runtime]. *)

From Stdlib Require Import List String Ascii ZArith Bool.
From Stdlib Require Import DecimalString.
Import ListNotations.
Local Open Scope string_scope.
Set Warnings "-register-all".

(* ================================================================== *)
(** ** Python values *)
(* ================================================================== *)

(** The values [json.loads] returns: [None], booleans, integers, strings,
    lists and dicts with string keys.  Floats are left out. *)
Inductive value : Type :=
| VNone
| VBool (b : bool)
| VInt (n : Z)
| VStr (s : string)
| VList (l : list value)
| VDict (d : list (string * value)).

(** A dict keeps its items in insertion order. *)
Definition dict : Type := list (string * value).

Fixpoint lookup (d : dict) (k : string) : option value :=
  match d with
  | [] => None
  | (k', v) :: d' => if k' =? k then Some v else lookup d' k
  end.

(** [d[k] = v] *)
Fixpoint setitem (d : dict) (k : string) (v : value) : dict :=
  match d with
  | [] => [(k, v)]
  | (k', v') :: d' =>
      if k' =? k then (k, v) :: d' else (k', v') :: setitem d' k v
  end.

Definition keys (d : dict) : list string := map fst d.

(** Exceptions the module can meet, sorted by the [except] clause of
    [_validate_request] that catches them, in the order of the clauses:
    [TypeError] is an instance of [TypeError]; [BaseJSONRPCException] an
    instance of that class or of a class extending it, where [code] is
    [None] when the raised object has no [code] attribute (the base class
    declares none) and [message] is the attribute every Python 2 exception
    has; [AttributeError] and [Exception] are the exceptions left to the
    bare [except]. *)
Inductive exception : Type :=
| TypeError
| AttributeError
| BaseJSONRPCException (code : option value) (message : value)
| Exception (name : string).

(** The outcome of running a piece of Python. *)
Inductive outcome (A : Type) : Type :=
| Returns (a : A)
| Raises (e : exception).
Arguments Returns {A} a.
Arguments Raises {A} e.

Definition bind {A B : Type} (c : outcome A) (k : A -> outcome B) : outcome B :=
  match c with
  | Returns a => k a
  | Raises e => Raises e
  end.

Notation "x <- c ;; k" := (bind c (fun x => k))
  (at level 61, c at next level, right associativity).

(** [len(v)] *)
Definition len (v : value) : outcome nat :=
  match v with
  | VStr s => Returns (String.length s)
  | VList l => Returns (List.length l)
  | VDict d => Returns (List.length d)
  | VNone | VBool _ | VInt _ => Raises TypeError
  end.

(** [d.get(k)] on a dict: a missing key gives [None]. *)
Definition item (d : dict) (k : string) : value :=
  match lookup d k with
  | Some x => x
  | None => VNone
  end.

(** [v.get(k)]: only a dict has the method. *)
Definition get (v : value) (k : string) : outcome value :=
  match v with
  | VDict d => Returns (item d k)
  | _ => Raises AttributeError
  end.

Fixpoint chars (s : string) : list value :=
  match s with
  | EmptyString => []
  | String c s' => VStr (String c EmptyString) :: chars s'
  end.

(** The positional arguments of a call [f( *v )]: the items of an iterable. *)
Definition star (v : value) : outcome (list value) :=
  match v with
  | VList l => Returns l
  | VStr s => Returns (chars s)
  | VDict d => Returns (map VStr (keys d))
  | VNone | VBool _ | VInt _ => Raises TypeError
  end.

(** The keyword arguments of a call [f( **v )]: a mapping. *)
Definition star_star (v : value) : outcome dict :=
  match v with
  | VDict d => Returns d
  | _ => Raises TypeError
  end.

(** [v != s] for a string constant [s]. *)
Definition differs (v : value) (s : string) : bool :=
  match v with
  | VStr s' => negb (s' =? s)
  | _ => true
  end.

(** [v in names] for a list of attribute names. *)
Definition member (v : value) (names : list string) : bool :=
  match v with
  | VStr s => existsb (String.eqb s) names
  | _ => false
  end.

(** [sorted(set(names))], the order [dir] lists names in. *)
Fixpoint insert_name (x : string) (l : list string) : list string :=
  match l with
  | [] => [x]
  | y :: l' =>
      match String.compare x y with
      | Lt => x :: l
      | Eq => l
      | Gt => y :: insert_name x l'
      end
  end.

Definition sorted_set (names : list string) : list string :=
  fold_right insert_name [] names.

(** [field.startswith('_')] *)
Definition startswith_underscore (field : string) : bool :=
  match field with
  | String c _ => Ascii.eqb c "_"
  | EmptyString => false
  end.

(* ================================================================== *)
(** ** The runtime the module runs on *)
(* ================================================================== *)

(** What the module takes from outside its own source: the [simplejson]
    codec and the attribute names the interpreter gives to every new-style
    object and to [None].  [loads] answers [None] where [json.loads]
    raises. *)
Class Runtime : Type := {
  loads : string -> option value;
  dumps : value -> string;
  dir_object : list string;
  dir_None : list string
}.

(** Every name the interpreter contributes is private (a dunder name). *)
Definition private_builtins `{Runtime} : bool :=
  forallb startswith_underscore dir_object.

(** corresponding spec version *)
Definition RPC_VERSION : string := "2.0".

(* ================================================================== *)
(** ** Responses *)
(* ================================================================== *)

Inductive class : Type :=
| cInternalError
| cNonExistentMethodError
| cInvalidJSONError
| cinvalidRequestObjecError
| cCustomException
| cSuccessResponse.

(** An instance of [BaseResourceResponse] or of a class extending it (an
    instance of an extending class counts under the class it extends):
    [self.id], [self._exclude] and the attributes assigned after them. *)
Record BaseResourceResponse : Type := {
  class_of : class;
  id : value;
  _exclude : list string;
  attrs : dict
}.

(** [BaseResourceResponse.__init__(self, request_id)] *)
Definition __init__ (c : class) (request_id : value) : BaseResourceResponse :=
  {| class_of := c; id := request_id; _exclude := []; attrs := [] |}.

(** [setattr(obj, name, v)] for a name other than [id] and [_exclude]. *)
Definition setattr (obj : BaseResourceResponse) (name : string) (v : value)
  : BaseResourceResponse :=
  {| class_of := class_of obj; id := id obj; _exclude := _exclude obj;
     attrs := setitem (attrs obj) name v |}.

Definition error_object (code : value) (message : value) : value :=
  VDict [("code", code); ("message", message)].

Definition InternalError (request_id : value) : BaseResourceResponse :=
  setattr (__init__ cInternalError request_id) "error"
    (error_object (VInt (-32603)) (VStr "Internal error.")).

Definition NonExistentMethodError (request_id : value) : BaseResourceResponse :=
  setattr (__init__ cNonExistentMethodError request_id) "error"
    (error_object (VInt (-32601)) (VStr "Method not found.")).

Definition InvalidJSONError (request_id : value) : BaseResourceResponse :=
  setattr (__init__ cInvalidJSONError request_id) "error"
    (error_object (VInt (-32700)) (VStr "Parse error.")).

Definition invalidRequestObjecError (request_id : value) : BaseResourceResponse :=
  setattr (__init__ cinvalidRequestObjecError request_id) "error"
    (error_object (VInt (-32600)) (VStr "Invalid Request.")).

(** [CustomException(e, request_id)] reads [e.code] and [e.message]; an
    exception without a [code] attribute makes the constructor raise. *)
Definition CustomException (e : exception) (request_id : value)
  : outcome BaseResourceResponse :=
  match e with
  | BaseJSONRPCException (Some code) message =>
      Returns (setattr (__init__ cCustomException request_id) "error"
                 (error_object code message))
  | _ => Raises AttributeError
  end.

Definition SuccessResponse (result : value) (request_id : value)
  : BaseResourceResponse :=
  setattr (__init__ cSuccessResponse request_id) "result" result.

(** Reading the response back: its error code and message, when it has
    an [error] attribute of the usual shape. *)
Definition error_of (obj : BaseResourceResponse) : option (value * value) :=
  match lookup (attrs obj) "error" with
  | Some (VDict e) =>
      match lookup e "code", lookup e "message" with
      | Some c, Some m => Some (c, m)
      | _, _ => None
      end
  | _ => None
  end.

Definition result_of (obj : BaseResourceResponse) : option value :=
  lookup (attrs obj) "result".

(* ================================================================== *)
(** ** ResourceResponseJSONEncoder *)
(* ================================================================== *)

Section Encoder.
Context `{Runtime}.

(** [dir(obj)]: the names of the instance and of its class, sorted.  The
    response classes define [__init__] and [__str__] themselves. *)
Definition dir (obj : BaseResourceResponse) : list string :=
  sorted_set ("__init__" :: "__str__" :: dir_object
              ++ "id" :: "_exclude" :: keys (attrs obj))%list.

(** [getattr(obj, field)] where the attribute is a plain value of the
    instance; [None] for a name that only the class has (a method). *)
Definition getattr (obj : BaseResourceResponse) (field : string)
  : option value :=
  if field =? "id" then Some (id obj)
  else if field =? "_exclude" then Some (VList (map VStr (_exclude obj)))
  else lookup (attrs obj) field.

(** The test of the loop of [default]:
    [not field.startswith('_') and not field in obj._exclude]. *)
Definition sendable (obj : BaseResourceResponse) (field : string) : bool :=
  negb (startswith_underscore field)
  && negb (existsb (String.eqb field) (_exclude obj)).

(** One turn of the loop of [default].  A method stored in the response
    dict is what [json.JSONEncoder.default] refuses with a [TypeError]
    when the dict is written out. *)
Definition default_step (obj : BaseResourceResponse)
  (response : outcome dict) (field : string) : outcome dict :=
  response <- response ;;
  if sendable obj field
  then match getattr obj field with
       | Some v => Returns (setitem response field v)
       | None => Raises TypeError
       end
  else Returns response.

(** [ResourceResponseJSONEncoder.default(self, obj)] for a response. *)
Definition default (obj : BaseResourceResponse) : outcome dict :=
  fold_left (default_step obj) (dir obj)
    (Returns [("jsonrpc", VStr RPC_VERSION)]).

(** [BaseResourceResponse.__str__]:
    [json.dumps(self, cls=ResourceResponseJSONEncoder)] *)
Definition __str__ (obj : BaseResourceResponse) : outcome string :=
  response <- default obj ;;
  Returns (dumps (VDict response)).

End Encoder.

(* ================================================================== *)
(** ** RequestHandlerMixin *)
(* ================================================================== *)

(** What a service method hands back: a plain value, or an instance of
    [SuccessResponse] (or of a class extending it) it built itself. *)
Inductive returned : Type :=
| Plain (v : value)
| Success (obj : BaseResourceResponse).

(** An attribute of the handler: a method, seen as the outcome of calling
    it with positional and keyword arguments (binding the arguments to the
    signature is part of the call), or something that cannot be called. *)
Inductive attribute : Type :=
| Callable (f : list value -> dict -> outcome returned)
| NotCallable.

(** The object the mixin is mixed into, as [_validate_request] sees it
    when [dir(self)], [getattr(self, method)] and
    [self._get_protected_handler()] return, and when [self._logger], if
    the attribute exists, has an [exception] method.
    [_get_protected_handler] holds [dir] of the object the method returns,
    [None] when it returns [None]; [_logger] holds the behaviour of the
    call [self._logger.exception(...)] when the attribute exists. *)
Record handler : Type := {
  dir_self : list string;
  getattr_self : string -> attribute;
  _get_protected_handler : option (list string);
  _logger : option (exception -> outcome unit)
}.

(** What a call of the mixin leaves behind: its outcome and the
    exceptions [self._logger.exception] was called about. *)
Definition result : Type := (outcome BaseResourceResponse * list exception)%type.

Definition run {A : Type} (c : outcome A) (k : A -> result) : result :=
  match c with
  | Returns a => k a
  | Raises e => (Raises e, [])
  end.

Notation "x <-- c ;; k" := (run c (fun x => k))
  (at level 61, c at next level, right associativity).

Definition call (method_invoked : attribute) (args : list value) (kwargs : dict)
  : outcome returned :=
  match method_invoked with
  | Callable f => f args kwargs
  | NotCallable => Raises TypeError
  end.

Definition getattr_handler (self : handler) (method : value) : attribute :=
  match method with
  | VStr name => getattr_self self name
  | _ => NotCallable
  end.

Section Mixin.
Context `{Runtime}.

(** The names the class [RequestHandlerMixin] itself defines. *)
Definition mixin_methods : list string :=
  ["_get_protected_handler"; "handle_request"; "_validate_request"].

(** [dir(RequestHandlerMixin)] *)
Definition dir_RequestHandlerMixin : list string :=
  sorted_set (mixin_methods ++ dir_object)%list.

(** [dir(protected_handler)] *)
Definition dir_protected_handler (self : handler) : list string :=
  match _get_protected_handler self with
  | Some names => names
  | None => dir_None
  end.

(** The [try] statement of [_validate_request] and its handlers. *)
Definition invoke (self : handler) (method_invoked : attribute)
  (params request_object request_id : value) : result :=
  match (args <- star params ;;
         kwargs <- star_star request_object ;;
         call method_invoked args kwargs) with
  | Returns (Success invoked_result) => (Returns invoked_result, [])
  | Returns (Plain invoked_result) =>
      (Returns (SuccessResponse invoked_result request_id), [])
  | Raises TypeError => (Returns (invalidRequestObjecError request_id), [])
  | Raises (BaseJSONRPCException _ _ as e) =>
      (CustomException e request_id, [])
  | Raises e =>
      match _logger self with
      | Some exception_ =>
          match exception_ e with
          | Returns _ => (Returns (InternalError request_id), [e])
          | Raises e' => (Raises e', [e])
          end
      | None => (Returns (InternalError request_id), [])
      end
  end.

Definition _validate_request (self : handler) (request_object : value)
  : result :=
  n <-- len request_object ;;
  if Nat.ltb n 1 then (Returns (InvalidJSONError VNone), []) else
  json_version <-- get request_object "jsonrpc" ;;
  if differs json_version RPC_VERSION
  then (Returns (invalidRequestObjecError VNone), []) else
  method <-- get request_object "method" ;;
  params <-- get request_object "params" ;;
  request_id <-- get request_object "id" ;;
  let protected_methods :=
    (dir_RequestHandlerMixin ++ dir_protected_handler self)%list in
  if member method (dir_self self) && negb (member method protected_methods)
  then invoke self (getattr_handler self method)
         params request_object request_id
  else (Returns (NonExistentMethodError request_id), []).

Definition handle_request (self : handler) (data : string) : result :=
  match loads data with
  | None => (Returns (InvalidJSONError VNone), [])
  | Some request => _validate_request self request
  end.

(** The test [_validate_request] resolves a method name with:
    [method in dir(self) and method not in protected_methods]. *)
Definition dispatchable (self : handler) (method : value) : bool :=
  member method (dir_self self)
  && negb (member method
             (dir_RequestHandlerMixin ++ dir_protected_handler self)%list).

(** [data] is the text of a request object carrying the supported
    version tag. *)
Definition valid_request (data : string) (request : dict) : Prop :=
  loads data = Some (VDict request)
  /\ item request "jsonrpc" = VStr RPC_VERSION.

(** The codec reads back what it wrote for [v]. *)
Definition roundtrips (v : value) : Prop :=
  loads (dumps v) = Some v.

End Mixin.

(** The responses the constructors of the module build. *)
Inductive constructed : BaseResourceResponse -> Prop :=
| constructed_InternalError i : constructed (InternalError i)
| constructed_NonExistentMethodError i : constructed (NonExistentMethodError i)
| constructed_InvalidJSONError i : constructed (InvalidJSONError i)
| constructed_invalidRequestObjecError i :
    constructed (invalidRequestObjecError i)
| constructed_CustomException c m i obj :
    CustomException (BaseJSONRPCException c m) i = Returns obj ->
    constructed obj
| constructed_SuccessResponse v i : constructed (SuccessResponse v i).

(** Every [SuccessResponse] a method of the handler hands back was built
    by the constructor of the class. *)
Definition returns_constructed (self : handler) : Prop :=
  forall name f args kwargs obj,
    getattr_self self name = Callable f ->
    f args kwargs = Returns (Success obj) ->
    exists result request_id, obj = SuccessResponse result request_id.

(** The envelope a response is written as carries the version tag, an
    identifier and exactly one of [result] and [error]. *)
Definition envelope (response : dict) (request_id : value) : Prop :=
  lookup response "jsonrpc" = Some (VStr RPC_VERSION)
  /\ lookup response "id" = Some request_id
  /\ ((lookup response "result" <> None /\ lookup response "error" = None)
      \/ (lookup response "result" = None /\ lookup response "error" <> None)).

(* ================================================================== *)
(** ** The paths through [handle_request] *)
(* ================================================================== *)

(** The exceptions the bare [except] of [_validate_request] is left with. *)
Definition undeclared (e : exception) : bool :=
  match e with
  | TypeError | BaseJSONRPCException _ _ => false
  | AttributeError | Exception _ => true
  end.

(** Decoded payloads by what the first two statements of
    [_validate_request] do with them: no length, length zero, a length but
    no [get]. *)
Definition unsized (v : value) : bool :=
  match v with
  | VNone | VBool _ | VInt _ => true
  | _ => false
  end.

Definition empty (v : value) : bool :=
  match v with
  | VStr EmptyString | VList [] | VDict [] => true
  | _ => false
  end.

Definition sequence (v : value) : bool :=
  match v with
  | VStr (String _ _) | VList (_ :: _) => true
  | _ => false
  end.

Section Paths.
Context `{Runtime}.

(** The method name of a valid request passes the resolution test. *)
Definition resolves (self : handler) (data : string) (request : dict) : Prop :=
  valid_request data request
  /\ dispatchable self (item request "method") = true.

(** [handle_request] on [data] comes to call [f] with the positional
    arguments [args] and the request as keyword arguments. *)
Definition calls (self : handler) (data : string) (request : dict)
  (f : list value -> dict -> outcome returned) (args : list value) : Prop :=
  resolves self data request
  /\ getattr_handler self (item request "method") = Callable f
  /\ star (item request "params") = Returns args.

(** The exits of [handle_request] on a handler as described above (its
    attribute lookups and [_get_protected_handler] return): one rule for
    each [return] statement and for each statement that lets an exception
    out, with the exceptions the logger was called about by then. *)
Inductive answers (self : handler) (data : string)
  : outcome BaseResourceResponse -> list exception -> Prop :=
| answers_undecodable :
    loads data = None ->
    answers self data (Returns (InvalidJSONError VNone)) []
| answers_unsized v :
    loads data = Some v -> unsized v = true ->
    answers self data (Raises TypeError) []
| answers_empty v :
    loads data = Some v -> empty v = true ->
    answers self data (Returns (InvalidJSONError VNone)) []
| answers_sequence v :
    loads data = Some v -> sequence v = true ->
    answers self data (Raises AttributeError) []
| answers_version request :
    loads data = Some (VDict request) -> request <> [] ->
    differs (item request "jsonrpc") RPC_VERSION = true ->
    answers self data (Returns (invalidRequestObjecError VNone)) []
| answers_not_found request :
    valid_request data request ->
    dispatchable self (item request "method") = false ->
    answers self data (Returns (NonExistentMethodError (item request "id"))) []
| answers_not_unpacked request :
    resolves self data request ->
    star (item request "params") = Raises TypeError ->
    answers self data
      (Returns (invalidRequestObjecError (item request "id"))) []
| answers_not_callable request args :
    resolves self data request ->
    star (item request "params") = Returns args ->
    getattr_handler self (item request "method") = NotCallable ->
    answers self data
      (Returns (invalidRequestObjecError (item request "id"))) []
| answers_plain request f args v :
    calls self data request f args ->
    f args request = Returns (Plain v) ->
    answers self data (Returns (SuccessResponse v (item request "id"))) []
| answers_built request f args obj :
    calls self data request f args ->
    f args request = Returns (Success obj) ->
    answers self data (Returns obj) []
| answers_TypeError request f args :
    calls self data request f args ->
    f args request = Raises TypeError ->
    answers self data
      (Returns (invalidRequestObjecError (item request "id"))) []
| answers_declared request f args code message :
    calls self data request f args ->
    f args request = Raises (BaseJSONRPCException code message) ->
    answers self data
      (CustomException (BaseJSONRPCException code message) (item request "id"))
      []
| answers_unlogged request f args e :
    calls self data request f args ->
    f args request = Raises e -> undeclared e = true ->
    _logger self = None ->
    answers self data (Returns (InternalError (item request "id"))) []
| answers_logged request f args e exception_ :
    calls self data request f args ->
    f args request = Raises e -> undeclared e = true ->
    _logger self = Some exception_ -> exception_ e = Returns tt ->
    answers self data (Returns (InternalError (item request "id"))) [e]
| answers_logger_raises request f args e exception_ e' :
    calls self data request f args ->
    f args request = Raises e -> undeclared e = true ->
    _logger self = Some exception_ -> exception_ e = Raises e' ->
    answers self data (Raises e') [e].

(** [str(self.handle_request(data))], as the callers of the mixin write. *)
Definition respond (self : handler) (data : string) : outcome string :=
  obj <- fst (handle_request self data) ;;
  __str__ obj.

End Paths.

(** An attribute of a response that [default] may write: [id] or one
    assigned to the instance. *)
Definition has_attribute (obj : BaseResourceResponse) (field : string) : bool :=
  (field =? "id") || existsb (String.eqb field) (keys (attrs obj)).

(* ================================================================== *)
(** ** A runtime to run the module on *)
(* ================================================================== *)

(** A codec for the wire text of the values above, standing for
    [simplejson] on the fragment of JSON without floats and unicode
    escapes: [dumps] writes items separated by a comma and a colon, each
    followed by a space, as [json.dumps] does; [loads] reads such text and
    answers [None] where the text is not of that form. *)
Module simplejson.

Definition dquote : ascii := ascii_of_nat 34.
Definition backslash : ascii := ascii_of_nat 92.

Definition is_space (c : ascii) : bool :=
  match nat_of_ascii c with
  | 32 | 9 | 10 | 13 => true
  | _ => false
  end.

Definition digit (c : ascii) : option Z :=
  let n := Z.of_nat (nat_of_ascii c) in
  if ((48 <=? n) && (n <=? 57))%Z then Some (n - 48)%Z else None.

Fixpoint escape (s : string) : string :=
  match s with
  | EmptyString => EmptyString
  | String c r =>
      if Ascii.eqb c dquote || Ascii.eqb c backslash
      then String backslash (String c (escape r))
      else String c (escape r)
  end.

Definition quote (s : string) : string :=
  String dquote (escape s ++ String dquote EmptyString).

Fixpoint dumps (v : value) : string :=
  match v with
  | VNone => "null"
  | VBool true => "true"
  | VBool false => "false"
  | VInt n => NilZero.string_of_int (Z.to_int n)
  | VStr s => quote s
  | VList l =>
      "[" ++ (fix items (l : list value) : string :=
                match l with
                | [] => EmptyString
                | [x] => dumps x
                | x :: l' => dumps x ++ ", " ++ items l'
                end) l ++ "]"
  | VDict d =>
      "{" ++ (fix members (d : list (string * value)) : string :=
                match d with
                | [] => EmptyString
                | [(k, x)] => quote k ++ ": " ++ dumps x
                | (k, x) :: d' => quote k ++ ": " ++ dumps x ++ ", " ++ members d'
                end) d ++ "}"
  end.

Fixpoint skip (s : string) : string :=
  match s with
  | String c r => if is_space c then skip r else s
  | EmptyString => s
  end.

Fixpoint strip (p s : string) : option string :=
  match p, s with
  | EmptyString, _ => Some s
  | String a p', String b s' => if Ascii.eqb a b then strip p' s' else None
  | String _ _, EmptyString => None
  end.

Fixpoint digits (s : string) (acc : Z) : Z * string :=
  match s with
  | String c r =>
      match digit c with
      | Some n => digits r (10 * acc + n)%Z
      | None => (acc, s)
      end
  | EmptyString => (acc, s)
  end.

Definition number (s : string) : option (Z * string) :=
  match s with
  | String c _ =>
      match digit c with
      | Some _ => Some (digits s 0%Z)
      | None => None
      end
  | EmptyString => None
  end.

(** The text after an opening quote, up to the closing one. *)
Fixpoint text (s : string) : option (string * string) :=
  match s with
  | EmptyString => None
  | String c r =>
      if Ascii.eqb c dquote then Some (EmptyString, r)
      else if Ascii.eqb c backslash then
        match r with
        | String c' r' =>
            if Ascii.eqb c' dquote || Ascii.eqb c' backslash then
              match text r' with
              | Some (t, rest) => Some (String c' t, rest)
              | None => None
              end
            else None
        | EmptyString => None
        end
      else
        match text r with
        | Some (t, rest) => Some (String c t, rest)
        | None => None
        end
  end.

Definition dict_of (items : list (string * value)) : dict :=
  fold_left (fun d kv => setitem d (fst kv) (snd kv)) items [].

Fixpoint parse (fuel : nat) (s : string) : option (value * string) :=
  match fuel with
  | O => None
  | S fuel' =>
      match skip s with
      | EmptyString => None
      | String c r =>
          if Ascii.eqb c "n" then option_map (pair VNone) (strip "ull" r)
          else if Ascii.eqb c "t" then option_map (pair (VBool true)) (strip "rue" r)
          else if Ascii.eqb c "f" then option_map (pair (VBool false)) (strip "alse" r)
          else if Ascii.eqb c dquote then
            match text r with
            | Some (t, rest) => Some (VStr t, rest)
            | None => None
            end
          else if Ascii.eqb c "-" then
            match number r with
            | Some (n, rest) => Some (VInt (- n), rest)
            | None => None
            end
          else if Ascii.eqb c "[" then
            match skip r with
            | String "]" rest => Some (VList [], rest)
            | r' =>
                match parse_items fuel' r' with
                | Some (l, rest) => Some (VList l, rest)
                | None => None
                end
            end
          else if Ascii.eqb c "{" then
            match skip r with
            | String "}" rest => Some (VDict [], rest)
            | r' =>
                match parse_members fuel' r' with
                | Some (d, rest) => Some (VDict (dict_of d), rest)
                | None => None
                end
            end
          else
            match number (String c r) with
            | Some (n, rest) => Some (VInt n, rest)
            | None => None
            end
      end
  end

with parse_items (fuel : nat) (s : string) : option (list value * string) :=
  match fuel with
  | O => None
  | S fuel' =>
      match parse fuel' s with
      | Some (v, r) =>
          match skip r with
          | String "," r' =>
              match parse_items fuel' r' with
              | Some (l, rest) => Some (v :: l, rest)
              | None => None
              end
          | String "]" rest => Some ([v], rest)
          | _ => None
          end
      | None => None
      end
  end

with parse_members (fuel : nat) (s : string)
  : option (list (string * value) * string) :=
  match fuel with
  | O => None
  | S fuel' =>
      match skip s with
      | String c r =>
          if Ascii.eqb c dquote then
            match text r with
            | Some (k, r1) =>
                match skip r1 with
                | String ":" r2 =>
                    match parse fuel' r2 with
                    | Some (v, r3) =>
                        match skip r3 with
                        | String "," r4 =>
                            match parse_members fuel' r4 with
                            | Some (d, rest) => Some ((k, v) :: d, rest)
                            | None => None
                            end
                        | String "}" rest => Some ([(k, v)], rest)
                        | _ => None
                        end
                    | None => None
                    end
                | _ => None
                end
            | None => None
            end
          else None
      | EmptyString => None
      end
  end.

Definition loads (s : string) : option value :=
  match parse (2 * String.length s + 2) s with
  | Some (v, rest) =>
      match skip rest with
      | EmptyString => Some v
      | String _ _ => None
      end
  | None => None
  end.

End simplejson.

(** The names every new-style object, and [None], has under CPython 2.7,
    with the ones a class statement adds. *)
Definition CPython27_dir_object : list string :=
  ["__class__"; "__delattr__"; "__dict__"; "__doc__"; "__format__";
   "__getattribute__"; "__hash__"; "__init__"; "__module__"; "__new__";
   "__reduce__"; "__reduce_ex__"; "__repr__"; "__setattr__"; "__sizeof__";
   "__str__"; "__subclasshook__"; "__weakref__"].

Definition CPython27_dir_None : list string :=
  ["__class__"; "__delattr__"; "__doc__"; "__format__"; "__getattribute__";
   "__hash__"; "__init__"; "__new__"; "__reduce__"; "__reduce_ex__";
   "__repr__"; "__setattr__"; "__sizeof__"; "__str__"; "__subclasshook__"].

Definition CPython27 : Runtime :=
  {| loads := simplejson.loads;
     dumps := simplejson.dumps;
     dir_object := CPython27_dir_object;
     dir_None := CPython27_dir_None |}.

(* ================================================================== *)
(** ** Handlers to run the module with *)
(* ================================================================== *)

(** The controller of [src/tests/parsing/test_parsing.py]. *)
Module tests.

(** [class MyException(BaseJSONRPCException)] *)
Definition MyException : exception :=
  BaseJSONRPCException (Some (VInt 1)) (VStr "My Custom Exception").

(** A keyword argument names a parameter the signature already binds. *)
Definition clashes (kwargs : dict) (parameters : list string) : bool :=
  existsb (fun k => existsb (String.eqb k) parameters) (keys kwargs).

(** [def echo(self, message, **kwargs): return message] *)
Definition echo (args : list value) (kwargs : dict) : outcome returned :=
  match args with
  | [message] =>
      if clashes kwargs ["self"; "message"] then Raises TypeError
      else Returns (Plain message)
  | _ => Raises TypeError
  end.

(** [def custom_exception(self, **kwargs): raise MyException()] *)
Definition custom_exception (args : list value) (kwargs : dict)
  : outcome returned :=
  match args with
  | [] => if clashes kwargs ["self"] then Raises TypeError
          else Raises MyException
  | _ => Raises TypeError
  end.

(** [def internal_error(self, **kwargs): raise Exception()] *)
Definition internal_error (args : list value) (kwargs : dict)
  : outcome returned :=
  match args with
  | [] => if clashes kwargs ["self"] then Raises TypeError
          else Raises (Exception "Exception")
  | _ => Raises TypeError
  end.

(** [class SimpleController(RequestHandlerMixin)]; the names the mixin
    never resolves are left uncallable. *)
Definition SimpleController `{Runtime} : handler :=
  {| dir_self :=
       sorted_set (["echo"; "custom_exception"; "internal_error"]
                   ++ dir_RequestHandlerMixin)%list;
     getattr_self := fun name =>
       if name =? "echo" then Callable echo
       else if name =? "custom_exception" then Callable custom_exception
       else if name =? "internal_error" then Callable internal_error
       else NotCallable;
     _get_protected_handler := None;
     _logger := None |}.

End tests.

(** Further handlers: a service with a method of no positional argument,
    one that builds its own [SuccessResponse], one whose body meets a
    [TypeError], and controllers with a logger attached. *)
Module services.

(** [def ping(self, **kwargs): return "pong"] *)
Definition ping (args : list value) (kwargs : dict) : outcome returned :=
  match args with
  | [] => if tests.clashes kwargs ["self"] then Raises TypeError
          else Returns (Plain (VStr "pong"))
  | _ => Raises TypeError
  end.

(** [def status(self, **kwargs): return SuccessResponse("ok", 9)] *)
Definition status (args : list value) (kwargs : dict) : outcome returned :=
  match args with
  | [] => if tests.clashes kwargs ["self"] then Raises TypeError
          else Returns (Success (SuccessResponse (VStr "ok") (VInt 9)))
  | _ => Raises TypeError
  end.

(** [def total(self, **kwargs): return 1 + "1"] *)
Definition total (args : list value) (kwargs : dict) : outcome returned :=
  Raises TypeError.

Definition Service `{Runtime} : handler :=
  {| dir_self :=
       sorted_set (["ping"; "status"; "total"]
                   ++ dir_RequestHandlerMixin)%list;
     getattr_self := fun name =>
       if name =? "ping" then Callable ping
       else if name =? "status" then Callable status
       else if name =? "total" then Callable total
       else NotCallable;
     _get_protected_handler := None;
     _logger := None |}.

(** [self._logger = logger] *)
Definition with_logger (self : handler)
  (exception_ : exception -> outcome unit) : handler :=
  {| dir_self := sorted_set ("_logger" :: dir_self self);
     getattr_self := getattr_self self;
     _get_protected_handler := _get_protected_handler self;
     _logger := Some exception_ |}.

(** A logger that records the notification. *)
Definition recording : exception -> outcome unit := fun _ => Returns tt.

(** A logger whose [exception] method raises. *)
Definition closed : exception -> outcome unit :=
  fun _ => Raises (Exception "ValueError").

(** A logger whose [exception] method reads an attribute the logger does
    not have: the call is made and raises an [AttributeError]. *)
Definition faulty : exception -> outcome unit :=
  fun _ => Raises AttributeError.

(** The text of a request object. *)
Definition wire (request : dict) : string := simplejson.dumps (VDict request).

(** A request object for [method] with the supported version tag. *)
Definition request (method : string) (fields : dict) : dict :=
  ("jsonrpc", VStr "2.0") :: ("method", VStr method) :: fields.

End services.

(** Responses and controllers that extend the classes of the module. *)
Module extensions.

(** An instance of
    [class Paged(SuccessResponse)] whose [__init__] calls
    [SuccessResponse.__init__(self, result, request_id)] and then sets
    [self.cursor = 7], [self.page = 2], [self._cache = None] and
    [self._exclude = ['cursor']]. *)
Definition Paged (result request_id : value) : BaseResourceResponse :=
  {| class_of := cSuccessResponse;
     id := request_id;
     _exclude := ["cursor"];
     attrs := [("result", result); ("cursor", VInt 7); ("page", VInt 2);
               ("_cache", VNone)] |}.

(** An instance of [class Silent(SuccessResponse)] whose [__init__] calls
    [SuccessResponse.__init__(self, result, request_id)] and then sets
    [self._exclude = ['result']]. *)
Definition Silent (result request_id : value) : BaseResourceResponse :=
  {| class_of := cSuccessResponse;
     id := request_id;
     _exclude := ["result"];
     attrs := [("result", result)] |}.

(** An instance of [class Failed(SuccessResponse)] whose [__init__] calls
    [SuccessResponse.__init__(self, result, request_id)] and then sets
    [self.error = {'code': 7, 'message': 'late'}]. *)
Definition Failed (result request_id : value) : BaseResourceResponse :=
  {| class_of := cSuccessResponse;
     id := request_id;
     _exclude := [];
     attrs := [("result", result);
               ("error", error_object (VInt 7) (VStr "late"))] |}.

(** [def silent(self, **kwargs): return Silent("ok", 9)] *)
Definition silent (args : list value) (kwargs : dict) : outcome returned :=
  match args with
  | [] => if tests.clashes kwargs ["self"] then Raises TypeError
          else Returns (Success (Silent (VStr "ok") (VInt 9)))
  | _ => Raises TypeError
  end.

(** [def failed(self, **kwargs): return Failed("ok", 9)] *)
Definition failed (args : list value) (kwargs : dict) : outcome returned :=
  match args with
  | [] => if tests.clashes kwargs ["self"] then Raises TypeError
          else Returns (Success (Failed (VStr "ok") (VInt 9)))
  | _ => Raises TypeError
  end.

(** A controller whose methods return responses of the extending
    classes. *)
Definition Extending `{Runtime} : handler :=
  {| dir_self := sorted_set (["silent"; "failed"] ++ dir_RequestHandlerMixin)%list;
     getattr_self := fun name =>
       if name =? "silent" then Callable silent
       else if name =? "failed" then Callable failed
       else NotCallable;
     _get_protected_handler := None;
     _logger := None |}.

(** The controller of the test suite with a method of its own under the
    name [handle_request]:
    [def handle_request(self, message, **kwargs): return message]. *)
Definition Shadowing `{Runtime} : handler :=
  {| dir_self := dir_self tests.SimpleController;
     getattr_self := fun name =>
       if name =? "handle_request" then Callable tests.echo
       else getattr_self tests.SimpleController name;
     _get_protected_handler := None;
     _logger := None |}.

(** [def fail(self, **kwargs): raise BaseJSONRPCException()] *)
Definition fail (args : list value) (kwargs : dict) : outcome returned :=
  match args with
  | [] => if tests.clashes kwargs ["self"] then Raises TypeError
          else Raises (BaseJSONRPCException None (VStr EmptyString))
  | _ => Raises TypeError
  end.

(** A controller with the method [fail] and the data attribute
    [self.version = 3]. *)
Definition Plain_data `{Runtime} : handler :=
  {| dir_self := sorted_set (["fail"; "version"] ++ dir_RequestHandlerMixin)%list;
     getattr_self := fun name =>
       if name =? "fail" then Callable fail else NotCallable;
     _get_protected_handler := None;
     _logger := None |}.

End extensions.

(* ================================================================== *)
(** ** Properties of the dispatcher *)
(* ================================================================== *)

Section Dispatch.
Context `{Runtime}.

Lemma In_insert_name (x y : string) (l : list string) :
  In y (insert_name x l) <-> y = x \/ In y l.
Proof.
  induction l as [|z l IH]; simpl.
  - intuition.
  - destruct (String.compare x z) eqn:E; simpl.
    + apply String.compare_eq_iff in E. subst. intuition.
    + intuition.
    + rewrite IH. intuition.
Qed.

Lemma In_sorted_set (y : string) (l : list string) :
  In y (sorted_set l) <-> In y l.
Proof.
  induction l as [|x l IH]; simpl.
  - reflexivity.
  - rewrite In_insert_name, IH. intuition.
Qed.

Lemma member_In (s : string) (names : list string) :
  member (VStr s) names = true <-> In s names.
Proof.
  simpl. rewrite existsb_exists. split.
  - intros (x & Hx & E). apply String.eqb_eq in E. now subst.
  - intros Hs. exists s. split; [assumption | apply String.eqb_refl].
Qed.

Lemma member_not_In (s : string) (names : list string) :
  member (VStr s) names = false <-> ~ In s names.
Proof.
  rewrite <- member_In. destruct (member (VStr s) names); intuition congruence.
Qed.

Lemma mixin_methods_guarded (name : string) :
  In name mixin_methods -> In name dir_RequestHandlerMixin.
Proof.
  intros Hn. apply In_sorted_set, in_or_app. now left.
Qed.

(** Past the two validation steps, [_validate_request] is the
    resolution test followed by the call. *)
Lemma validate_valid (self : handler) (request : dict) :
  item request "jsonrpc" = VStr RPC_VERSION ->
  _validate_request self (VDict request) =
    if dispatchable self (item request "method")
    then invoke self (getattr_handler self (item request "method"))
           (item request "params") (VDict request) (item request "id")
    else (Returns (NonExistentMethodError (item request "id")), []).
Proof.
  intros Hv. unfold _validate_request, dispatchable.
  destruct request as [|kv request]; [discriminate Hv|].
  cbn [len run get List.length Nat.ltb Nat.leb].
  rewrite Hv. reflexivity.
Qed.

Lemma handle_valid (self : handler) (data : string) (request : dict) :
  valid_request data request ->
  handle_request self data =
    if dispatchable self (item request "method")
    then invoke self (getattr_handler self (item request "method"))
           (item request "params") (VDict request) (item request "id")
    else (Returns (NonExistentMethodError (item request "id")), []).
Proof.
  intros [Hl Hv]. unfold handle_request. rewrite Hl.
  now apply validate_valid.
Qed.

(** The call made for a request whose arguments unpack. *)
Lemma invoke_call (self : handler) (f : list value -> dict -> outcome returned)
  (params : value) (request : dict) (request_id : value) (args : list value) :
  star params = Returns args ->
  invoke self (Callable f) params (VDict request) request_id =
    match f args request with
    | Returns (Success invoked_result) => (Returns invoked_result, [])
    | Returns (Plain invoked_result) =>
        (Returns (SuccessResponse invoked_result request_id), [])
    | Raises TypeError => (Returns (invalidRequestObjecError request_id), [])
    | Raises (BaseJSONRPCException _ _ as e) =>
        (CustomException e request_id, [])
    | Raises e =>
        match _logger self with
        | Some exception_ =>
            match exception_ e with
            | Returns _ => (Returns (InternalError request_id), [e])
            | Raises e' => (Raises e', [e])
            end
        | None => (Returns (InternalError request_id), [])
        end
    end.
Proof.
  intros Hs. unfold invoke. rewrite Hs. reflexivity.
Qed.

(** A request whose arguments do not unpack never reaches the method. *)
Lemma invoke_unpack_fails (self : handler) (method_invoked : attribute)
  (params request_object request_id : value) :
  star params = Raises TypeError ->
  invoke self method_invoked params request_object request_id =
    (Returns (invalidRequestObjecError request_id), []).
Proof.
  intros Hs. unfold invoke. rewrite Hs. reflexivity.
Qed.

End Dispatch.

Section Claims.
Context `{Runtime}.

(** Rewrites a call of [handle_request] on a valid request whose method
    resolves to [f] and whose arguments unpack into the outcome of [f]. *)
Ltac resolved Hv Hd Hg Hs Hf :=
  rewrite (handle_valid _ _ _ Hv), Hd, Hg;
  rewrite (invoke_call _ _ _ _ _ _ Hs), Hf.

(** C1 (what the code does where the claim fails): a payload that
    decodes to [None], a boolean or a number has no length, so the first
    test of [_validate_request] raises a [TypeError], and [handle_request]
    lets it through: no response is returned. *)
Theorem unsized_payload_propagates (self : handler) (data : string) (v : value) :
  loads data = Some v ->
  v = VNone \/ (exists b, v = VBool b) \/ (exists n, v = VInt n) ->
  handle_request self data = (Raises TypeError, []).
Proof.
  intros Hl Hv. unfold handle_request, _validate_request. rewrite Hl.
  destruct Hv as [->|[(b & ->)|(n & ->)]]; reflexivity.
Qed.

(** X10: a payload that decodes to a non-empty string or list has a
    length but no [get] method: after the length test, the lookup of the
    version tag raises an [AttributeError], which leaves [handle_request];
    no response is returned. *)
Lemma sequence_payload_propagates (self : handler) (data : string) (v : value) :
  loads data = Some v ->
  (exists c s, v = VStr (String c s)) \/ (exists x l, v = VList (x :: l)) ->
  handle_request self data = (Raises AttributeError, []).
Proof.
  intros Hl [(c & s & ->) | (x & l & ->)];
    unfold handle_request, _validate_request; rewrite Hl; reflexivity.
Qed.

(** C2 (amended): a payload that decodes to an object whose version tag
    is missing or differs from "2.0" is answered with a null identifier:
    with code -32600 (Invalid Request) when the object is not empty, and
    with code -32700 (Parse error) when it is the empty object. *)
Theorem invalid_object_codes (self : handler) (data : string) (request : dict) :
  loads data = Some (VDict request) ->
  item request "jsonrpc" <> VStr RPC_VERSION ->
  handle_request self data =
    (Returns match request with
             | [] => InvalidJSONError VNone
             | _ :: _ => invalidRequestObjecError VNone
             end, []).
Proof.
  intros Hl Hv. unfold handle_request, _validate_request. rewrite Hl.
  destruct request as [|kv request]; [reflexivity|].
  cbn [len run get List.length Nat.ltb Nat.leb].
  destruct (item (kv :: request) "jsonrpc") as [| | |s| |] eqn:E;
    try reflexivity.
  cbn [differs]. destruct (String.eqb_spec s RPC_VERSION) as [->|Hne].
  - now contradiction Hv.
  - reflexivity.
Qed.

(** C3 (amended): for a valid request without a [params] field whose
    method name resolves, unpacking the absent arguments raises a
    [TypeError] before the method runs, and the answer is the error
    -32600 (Invalid Request) with the identifier of the request. *)
Theorem absent_params_invalid_request
  (self : handler) (data : string) (request : dict) :
  valid_request data request ->
  lookup request "params" = None ->
  dispatchable self (item request "method") = true ->
  handle_request self data =
    (Returns (invalidRequestObjecError (item request "id")), [])
  /\ error_of (invalidRequestObjecError (item request "id"))
     = Some (VInt (-32600), VStr "Invalid Request.").
Proof.
  intros Hv Hp Hd. split; [|reflexivity].
  rewrite (handle_valid self data request Hv), Hd.
  apply invoke_unpack_fails. unfold item. rewrite Hp. reflexivity.
Qed.

(** With [params] present and empty, a method of no positional argument
    is called and its value comes back as a success. *)
Lemma empty_params_success (self : handler) (data : string) (request : dict)
  (f : list value -> dict -> outcome returned) (v : value) :
  valid_request data request ->
  item request "params" = VList [] ->
  dispatchable self (item request "method") = true ->
  getattr_handler self (item request "method") = Callable f ->
  f [] request = Returns (Plain v) ->
  handle_request self data =
    (Returns (SuccessResponse v (item request "id")), []).
Proof.
  intros Hv Hp Hd Hg Hf.
  rewrite (handle_valid self data request Hv), Hd, Hg.
  rewrite (invoke_call self f _ request _ []) by (now rewrite Hp).
  now rewrite Hf.
Qed.

(** C4: for a valid request, a method name that the mixin defines
    itself, or that the protected companion object exposes, or that the
    handler does not expose, is answered with the error -32601 (Method
    not found) and the identifier of the request, whether or not the
    handler exposes the name too. *)
Theorem guarded_or_unknown_method_not_found
  (self : handler) (data : string) (request : dict) (name : string) :
  valid_request data request ->
  item request "method" = VStr name ->
  In name mixin_methods \/ In name (dir_protected_handler self)
  \/ ~ In name (dir_self self) ->
  handle_request self data =
    (Returns (NonExistentMethodError (item request "id")), [])
  /\ error_of (NonExistentMethodError (item request "id"))
     = Some (VInt (-32601), VStr "Method not found.")
  /\ id (NonExistentMethodError (item request "id")) = item request "id".
Proof.
  intros Hv Hm Hg. split; [|split; reflexivity].
  rewrite (handle_valid self data request Hv), Hm.
  assert (dispatchable self (VStr name) = false) as ->; [|reflexivity].
  unfold dispatchable. apply andb_false_iff.
  destruct Hg as [Hg | [Hg | Hg]].
  - right. apply negb_false_iff, member_In, in_or_app. left.
    now apply mixin_methods_guarded.
  - right. apply negb_false_iff, member_In, in_or_app. now right.
  - left. now apply member_not_In.
Qed.

(** C5: for a valid request with identifier [i] whose resolved method
    raises a [BaseJSONRPCException] carrying the numeric code [c] and the
    message [m], the answer is the error response with code [c], message
    [m] and identifier [i]. *)
Theorem declared_failure_reported
  (self : handler) (data : string) (request : dict)
  (f : list value -> dict -> outcome returned) (args : list value)
  (c : Z) (m : value) :
  valid_request data request ->
  dispatchable self (item request "method") = true ->
  getattr_handler self (item request "method") = Callable f ->
  star (item request "params") = Returns args ->
  f args request = Raises (BaseJSONRPCException (Some (VInt c)) m) ->
  exists obj,
    handle_request self data = (Returns obj, [])
    /\ error_of obj = Some (VInt c, m)
    /\ result_of obj = None
    /\ id obj = item request "id".
Proof.
  intros Hv Hd Hg Hs Hf.
  resolved Hv Hd Hg Hs Hf.
  eexists. split; [reflexivity|]. repeat split.
Qed.

(** C6 (amended): for a valid request with identifier [i] whose resolved
    method raises a failure that is neither a [TypeError] nor a
    [BaseJSONRPCException], and a handler that has no [_logger] or whose
    [_logger.exception] returns, the answer is the error -32603 with the
    fixed message "Internal error." and identifier [i]. *)
Theorem undeclared_failure_internal_error
  (self : handler) (data : string) (request : dict)
  (f : list value -> dict -> outcome returned) (args : list value)
  (e : exception) :
  valid_request data request ->
  dispatchable self (item request "method") = true ->
  getattr_handler self (item request "method") = Callable f ->
  star (item request "params") = Returns args ->
  f args request = Raises e ->
  e <> TypeError ->
  (forall c m, e <> BaseJSONRPCException c m) ->
  (forall exception_, _logger self = Some exception_ ->
                      exception_ e = Returns tt) ->
  fst (handle_request self data) = Returns (InternalError (item request "id"))
  /\ error_of (InternalError (item request "id"))
     = Some (VInt (-32603), VStr "Internal error.")
  /\ id (InternalError (item request "id")) = item request "id".
Proof.
  intros Hv Hd Hg Hs Hf Ht Hb Hq. split; [|split; reflexivity].
  resolved Hv Hd Hg Hs Hf.
  destruct e as [| |c m|n];
    [congruence | | now contradiction (Hb c m) | ];
    (destruct (_logger self) as [lg|] eqn:El; [|reflexivity]);
    now rewrite (Hq lg eq_refl).
Qed.

(** C7 (amended): for a valid request whose resolved method raises an
    unanticipated failure, when the handler has a [_logger] and
    [_logger.exception] itself raises, that failure leaves
    [handle_request] in place of a response, after the logger was
    notified. *)
Theorem logger_failure_propagates
  (self : handler) (data : string) (request : dict)
  (f : list value -> dict -> outcome returned) (args : list value)
  (e e' : exception) (exception_ : exception -> outcome unit) :
  valid_request data request ->
  dispatchable self (item request "method") = true ->
  getattr_handler self (item request "method") = Callable f ->
  star (item request "params") = Returns args ->
  f args request = Raises e ->
  e <> TypeError ->
  (forall c m, e <> BaseJSONRPCException c m) ->
  _logger self = Some exception_ ->
  exception_ e = Raises e' ->
  handle_request self data = (Raises e', [e]).
Proof.
  intros Hv Hd Hg Hs Hf Ht Hb Hl He.
  resolved Hv Hd Hg Hs Hf. rewrite Hl.
  destruct e as [| |c m|n];
    [congruence | | now contradiction (Hb c m) | ];
    now rewrite He.
Qed.

(** C10: for a valid request with identifier [i] whose resolved method
    raises a [TypeError] from its own body, whatever the reason, the
    answer is the error -32600 (Invalid Request) with identifier [i],
    not the internal error, and the logger receives nothing. *)
Theorem body_TypeError_invalid_request
  (self : handler) (data : string) (request : dict)
  (f : list value -> dict -> outcome returned) (args : list value) :
  valid_request data request ->
  dispatchable self (item request "method") = true ->
  getattr_handler self (item request "method") = Callable f ->
  star (item request "params") = Returns args ->
  f args request = Raises TypeError ->
  handle_request self data =
    (Returns (invalidRequestObjecError (item request "id")), [])
  /\ error_of (invalidRequestObjecError (item request "id"))
     = Some (VInt (-32600), VStr "Invalid Request.")
  /\ invalidRequestObjecError (item request "id")
     <> InternalError (item request "id").
Proof.
  intros Hv Hd Hg Hs Hf. split; [|split; [reflexivity | discriminate]].
  now resolved Hv Hd Hg Hs Hf.
Qed.

(** *** The encoder *)

Lemma lookup_setitem (d : dict) (a k : string) (v : value) :
  lookup (setitem d a v) k = if a =? k then Some v else lookup d k.
Proof.
  induction d as [|[k' v'] d IH]; simpl.
  - reflexivity.
  - destruct (String.eqb_spec k' a) as [->|Hne]; simpl.
    + destruct (a =? k); reflexivity.
    + rewrite IH. destruct (String.eqb_spec k' k) as [->|Hk].
      * destruct (String.eqb_spec a k) as [->|]; [now contradiction Hne | reflexivity].
      * reflexivity.
Qed.

Lemma lookup_keys (d : dict) (k : string) :
  In k (keys d) <-> lookup d k <> None.
Proof.
  induction d as [|[k' v'] d IH]; simpl.
  - intuition.
  - destruct (String.eqb_spec k' k) as [->|Hne].
    + split; [discriminate | now left].
    + rewrite <- IH. intuition.
Qed.

(** What the loop of [default] leaves in the response dict. *)
Lemma fold_default_step (obj : BaseResourceResponse) (fields : list string) :
  forall response0,
    (forall field, In field fields -> sendable obj field = true ->
                   getattr obj field <> None) ->
    exists response,
      fold_left (default_step obj) fields (Returns response0) = Returns response
      /\ (forall key, In key fields -> sendable obj key = true ->
                      lookup response key = getattr obj key)
      /\ (forall key, ~ In key fields \/ sendable obj key = false ->
                      lookup response key = lookup response0 key).
Proof.
  induction fields as [|a fields IH]; intros response0 Hget.
  - exists response0. simpl. intuition.
  - assert (exists response1,
               default_step obj (Returns response0) a = Returns response1
               /\ forall key, lookup response1 key =
                    if sendable obj a && (a =? key) then getattr obj a
                    else lookup response0 key) as (response1 & Hstep & H1).
    { unfold default_step. cbn [bind].
      destruct (sendable obj a) eqn:Hs.
      - destruct (getattr obj a) as [v|] eqn:Hv.
        + exists (setitem response0 a v). split; [reflexivity|].
          intros key. now rewrite lookup_setitem.
        + now contradiction (Hget a (or_introl eq_refl) Hs).
      - exists response0. split; [reflexivity|]. reflexivity. }
    destruct (IH response1) as (response & Hfold & Hin & Hout).
    { intros field Hf. apply Hget. now right. }
    exists response. cbn [fold_left]. rewrite Hstep. split; [exact Hfold|].
    split.
    + intros key Hk Hs. destruct (in_dec string_dec key fields) as [Hi|Hi].
      * now apply Hin.
      * destruct Hk as [->|Hk]; [|now contradiction Hi].
        rewrite Hout by now left.
        now rewrite H1, Hs, String.eqb_refl.
    + intros key Hk. rewrite Hout, H1.
      * destruct (String.eqb_spec a key) as [->|Hne];
          [|now rewrite andb_false_r].
        destruct Hk as [Hk|Hk]; [contradiction Hk; now left|].
        now rewrite Hk.
      * destruct Hk as [Hk|Hk]; [left; intros Hi; apply Hk; now right|].
        now right.
Qed.

Lemma private_not_sendable (obj : BaseResourceResponse) (field : string) :
  startswith_underscore field = true -> sendable obj field = false.
Proof. intros Hp. unfold sendable. now rewrite Hp. Qed.

(** The names [dir] lists are the identifier, the attributes assigned to
    the instance, and private names. *)
Lemma dir_cases (obj : BaseResourceResponse) (field : string) :
  private_builtins = true ->
  In field (dir obj) ->
  field = "id" \/ In field (keys (attrs obj))
  \/ startswith_underscore field = true.
Proof.
  intros Hp Hd. unfold dir in Hd. rewrite In_sorted_set in Hd.
  cbn [In] in Hd.
  destruct Hd as [<-|[<-|Hd]]; [now right; right | now right; right |].
  apply in_app_or in Hd. cbn [In] in Hd.
  destruct Hd as [Hd|[<-|[<-|Hd]]].
  - right; right. unfold private_builtins in Hp.
    now apply (proj1 (forallb_forall _ _) Hp).
  - now left.
  - now right; right.
  - now right; left.
Qed.

Lemma dir_has (obj : BaseResourceResponse) (field : string) :
  field = "id" \/ In field (keys (attrs obj)) -> In field (dir obj).
Proof.
  intros Hf. unfold dir. apply In_sorted_set.
  right; right. apply in_or_app. right. cbn [In].
  destruct Hf as [->|Hf]; [now left | now right; right].
Qed.

(** [default] on a response, under an interpreter whose own names are
    all private: the version tag, then every public attribute of the
    instance that is not excluded. *)
Lemma default_spec (obj : BaseResourceResponse) :
  private_builtins = true ->
  exists response,
    default obj = Returns response
    /\ (forall key, key = "id" \/ In key (keys (attrs obj)) ->
                    sendable obj key = true ->
                    lookup response key = getattr obj key)
    /\ (forall key, key <> "id" -> ~ In key (keys (attrs obj)) ->
                    lookup response key
                    = lookup [("jsonrpc", VStr RPC_VERSION)] key).
Proof.
  intros Hp. unfold default.
  destruct (fold_default_step obj (dir obj) [("jsonrpc", VStr RPC_VERSION)])
    as (response & Hfold & Hin & Hout).
  { intros field Hd Hs.
    destruct (dir_cases obj field Hp Hd) as [->|[Hk|Hu]].
    - discriminate.
    - unfold getattr. destruct (field =? "id"); [discriminate|].
      destruct (field =? "_exclude"); [discriminate|].
      now apply lookup_keys.
    - now rewrite (private_not_sendable obj field Hu) in Hs. }
  exists response. split; [exact Hfold|]. split.
  - intros key Hk Hs. apply Hin; [now apply dir_has | exact Hs].
  - intros key Hid Hk. apply Hout.
    destruct (in_dec string_dec key (dir obj)) as [Hd|Hd]; [|now left].
    right. destruct (dir_cases obj key Hp Hd) as [->|[Hk'|Hu]].
    + now contradiction Hid.
    + now contradiction Hk.
    + now apply private_not_sendable.
Qed.

(** The shape the constructors give a response: nothing excluded and
    one attribute next to the identifier, [result] or [error]. *)
Lemma constructed_shape (obj : BaseResourceResponse) :
  constructed obj ->
  _exclude obj = []
  /\ exists field v, attrs obj = [(field, v)]
                     /\ (field = "result" \/ field = "error").
Proof.
  intros Hc. destruct Hc as [i|i|i|i|c m i obj Hc|v i];
    try (split; [reflexivity|]; eexists; eexists; split; [reflexivity|]; auto).
  destruct c as [c|]; [|discriminate Hc].
  injection Hc as <-.
  split; [reflexivity|]. eexists; eexists; split; [reflexivity|]; auto.
Qed.

(** The envelope written for a constructed response. *)
Lemma constructed_default (obj : BaseResourceResponse) :
  private_builtins = true ->
  constructed obj ->
  exists response,
    default obj = Returns response
    /\ lookup response "jsonrpc" = Some (VStr RPC_VERSION)
    /\ lookup response "id" = Some (id obj)
    /\ lookup response "result" = lookup (attrs obj) "result"
    /\ lookup response "error" = lookup (attrs obj) "error".
Proof.
  intros Hp Hc.
  destruct (constructed_shape obj Hc) as (Hx & field & v & Ha & Hf).
  destruct (default_spec obj Hp) as (response & Hd & Hin & Hout).
  exists response. split; [exact Hd|].
  assert (forall key, startswith_underscore key = false ->
                      sendable obj key = true) as Hs.
  { intros key Hk. unfold sendable. now rewrite Hk, Hx. }
  rewrite Ha in Hin, Hout. cbn [keys map fst In] in Hin, Hout.
  split; [|split; [|split]].
  - apply (Hout "jsonrpc"); [discriminate|].
    intros [E|[]]; destruct Hf as [->| ->]; discriminate E.
  - rewrite (Hin "id"); [reflexivity | now left | now apply Hs].
  - destruct Hf as [->| ->].
    + rewrite (Hin "result"); [reflexivity | right; now left | now apply Hs].
    + rewrite (Hout "result"), Ha; [reflexivity | discriminate |].
      intros [E|[]]; discriminate E.
  - destruct Hf as [->| ->].
    + rewrite (Hout "error"), Ha; [reflexivity | discriminate |].
      intros [E|[]]; discriminate E.
    + rewrite (Hin "error"); [reflexivity | right; now left | now apply Hs].
Qed.

(** Every response [handle_request] returns comes from a constructor of
    the module, given that the methods of the handler build theirs with
    [SuccessResponse]. *)
Lemma handle_request_constructed
  (self : handler) (data : string) (obj : BaseResourceResponse)
  (log : list exception) :
  returns_constructed self ->
  handle_request self data = (Returns obj, log) ->
  constructed obj.
Proof.
  intros Hrc. unfold handle_request.
  destruct (loads data) as [request|];
    [|intros [= <- _]; constructor].
  unfold _validate_request.
  destruct (len request) as [n|e]; cbn [run]; [|discriminate].
  destruct (Nat.ltb n 1); [intros [= <- _]; constructor|].
  destruct (get request "jsonrpc") as [json_version|e]; cbn [run];
    [|discriminate].
  destruct (differs json_version RPC_VERSION);
    [intros [= <- _]; constructor|].
  destruct (get request "method") as [method|e]; cbn [run]; [|discriminate].
  destruct (get request "params") as [params|e]; cbn [run]; [|discriminate].
  destruct (get request "id") as [request_id|e]; cbn [run]; [|discriminate].
  destruct (member method (dir_self self) && _);
    [|intros [= <- _]; constructor].
  unfold invoke.
  assert ((exists args, star params = Returns args)
          \/ star params = Raises TypeError) as [(args & ->)| ->]
    by (destruct params; simpl; eauto);
    cbn [bind]; [|intros [= <- _]; constructor].
  assert ((exists kwargs, star_star request = Returns kwargs)
          \/ star_star request = Raises TypeError) as [(kwargs & ->)| ->]
    by (destruct request; simpl; eauto);
    cbn [bind]; [|intros [= <- _]; constructor].
  destruct (call (getattr_handler self method) args kwargs)
    as [[v|invoked_result]|e] eqn:Hcall.
  - intros [= <- _]; constructor.
  - intros [= <- _].
    unfold call in Hcall.
    destruct (getattr_handler self method) as [f|] eqn:Hget;
      [|discriminate Hcall].
    destruct method as [| | |name| |]; try discriminate Hget.
    destruct (Hrc name f args kwargs invoked_result Hget Hcall)
      as (result & i & ->).
    constructor.
  - destruct e as [| |c m|name].
    + intros [= <- _]; constructor.
    + destruct (_logger self) as [exception_|];
        [destruct (exception_ AttributeError); [|discriminate]|];
        intros [= <- _]; constructor.
    + intros Hc. eapply constructed_CustomException.
      destruct (CustomException (BaseJSONRPCException c m) request_id)
        as [o|e] eqn:E; [|discriminate Hc].
      injection Hc as <- _. exact E.
    + destruct (_logger self) as [exception_|];
        [destruct (exception_ (Exception name)); [|discriminate]|];
        intros [= <- _]; constructor.
Qed.

(** C8 (amended): when the [SuccessResponse] objects that methods of the
    handler hand back are built by the constructor of the class, every
    response [handle_request] returns is written as an envelope that
    carries the version tag, an identifier and exactly one of the fields
    [result] and [error]. *)
Theorem response_carries_one_payload
  (self : handler) (data : string) (obj : BaseResourceResponse)
  (log : list exception) :
  private_builtins = true ->
  returns_constructed self ->
  handle_request self data = (Returns obj, log) ->
  exists response,
    default obj = Returns response /\ envelope response (id obj).
Proof.
  intros Hp Hrc Hh.
  pose proof (handle_request_constructed self data obj log Hrc Hh) as Hc.
  destruct (constructed_default obj Hp Hc)
    as (response & Hd & Hv & Hi & Hr & He).
  exists response. split; [exact Hd|].
  unfold envelope. rewrite Hv, Hi, Hr, He.
  split; [reflexivity|]. split; [reflexivity|].
  destruct (constructed_shape obj Hc) as (_ & field & v & -> & [->| ->]).
  - left. split; [discriminate | reflexivity].
  - right. split; [reflexivity | discriminate].
Qed.


End Claims.

(* ================================================================== *)
(** ** Further properties of the module *)
(* ================================================================== *)

Section Coverage.
Context `{Runtime}.

Lemma differs_false (v : value) (s : string) :
  differs v s = false -> v = VStr s.
Proof.
  destruct v as [| | |s'| |]; try discriminate. cbn [differs].
  intros E. apply negb_false_iff, String.eqb_eq in E. now subst.
Qed.

Lemma star_raises (params : value) (e : exception) :
  star params = Raises e -> e = TypeError.
Proof. destruct params; simpl; congruence. Qed.

(** Every run of [handle_request] leaves by one of the exits. *)
Lemma handle_request_answers (self : handler) (data : string) :
  answers self data (fst (handle_request self data))
    (snd (handle_request self data)).
Proof.
  unfold handle_request.
  destruct (loads data) as [v|] eqn:Hl; [|now constructor].
  destruct v as [| b | n | s | l | request];
    try (now apply (answers_unsized self data _ Hl)).
  - destruct s; [now apply (answers_empty self data _ Hl)
                | now apply (answers_sequence self data _ Hl)].
  - destruct l; [now apply (answers_empty self data _ Hl)
                | now apply (answers_sequence self data _ Hl)].
  - destruct request as [|kv request];
      [now apply (answers_empty self data _ Hl)|].
    unfold _validate_request.
    cbn [len run get List.length Nat.ltb Nat.leb].
    assert (kv :: request <> []) as Hne by discriminate.
    set (r := kv :: request) in *. clearbody r.
    destruct (differs (item r "jsonrpc") RPC_VERSION) eqn:Hd;
      [now apply (answers_version self data r)|].
    apply differs_false in Hd.
    assert (valid_request data r) as Hv by (now split).
    fold (dispatchable self (item r "method")).
    destruct (dispatchable self (item r "method")) eqn:Hdisp;
      [|now apply answers_not_found].
    assert (resolves self data r) as Hres by (now split).
    unfold invoke.
    destruct (star (item r "params")) as [args|e] eqn:Hs; cbn [bind star_star].
    2:{ pose proof (star_raises _ _ Hs) as ->. now apply answers_not_unpacked. }
    destruct (getattr_handler self (item r "method")) as [f|] eqn:Hg;
      cbn [call]; [|now apply (answers_not_callable self data r args)].
    assert (calls self data r f args) as Hc by (now repeat split).
    destruct (f args r) as [[v|obj]|e] eqn:Hf.
    + now apply (answers_plain self data r f args).
    + now apply (answers_built self data r f args).
    + destruct e as [| |code message|name].
      * now apply (answers_TypeError self data r f args).
      * destruct (_logger self) as [exception_|] eqn:Hlog.
        -- destruct (exception_ AttributeError) as [[]|e'] eqn:He.
           ++ now apply (answers_logged self data r f args _ exception_).
           ++ now apply (answers_logger_raises self data r f args _ exception_).
        -- now apply (answers_unlogged self data r f args AttributeError).
      * now apply (answers_declared self data r f args).
      * destruct (_logger self) as [exception_|] eqn:Hlog.
        -- destruct (exception_ (Exception name)) as [[]|e'] eqn:He.
           ++ now apply (answers_logged self data r f args _ exception_).
           ++ now apply (answers_logger_raises self data r f args _ exception_).
        -- now apply (answers_unlogged self data r f args (Exception name)).
Qed.

(** Each exit fixes the outcome and the notifications. *)
Lemma answers_handle_request (self : handler) (data : string)
  (out : outcome BaseResourceResponse) (log : list exception) :
  answers self data out log -> handle_request self data = (out, log).
Proof.
  intros A.
  destruct A as [Hl | v Hl Hv | v Hl Hv | v Hl Hv | request Hl Hne Hd
                | request Hv Hd | request [Hv Hd] Hs
                | request args [Hv Hd] Hs Hg
                | request f args v [[Hv Hd] [Hg Hs]] Hf
                | request f args obj [[Hv Hd] [Hg Hs]] Hf
                | request f args [[Hv Hd] [Hg Hs]] Hf
                | request f args code message [[Hv Hd] [Hg Hs]] Hf
                | request f args e [[Hv Hd] [Hg Hs]] Hf Hu Hlog
                | request f args e lg [[Hv Hd] [Hg Hs]] Hf Hu Hlog He
                | request f args e lg e' [[Hv Hd] [Hg Hs]] Hf Hu Hlog He].
  - unfold handle_request. now rewrite Hl.
  - unfold handle_request, _validate_request. rewrite Hl.
    destruct v; try discriminate Hv; reflexivity.
  - unfold handle_request, _validate_request. rewrite Hl.
    destruct v as [| | |[|]|[|]|[|]]; try discriminate Hv; reflexivity.
  - unfold handle_request, _validate_request. rewrite Hl.
    destruct v as [| | |[|]|[|]|]; try discriminate Hv; reflexivity.
  - unfold handle_request, _validate_request. rewrite Hl.
    destruct request as [|kv request]; [now contradiction Hne|].
    cbn [len run get List.length Nat.ltb Nat.leb]. now rewrite Hd.
  - now rewrite (handle_valid self data request Hv), Hd.
  - rewrite (handle_valid self data request Hv), Hd.
    now apply invoke_unpack_fails.
  - rewrite (handle_valid self data request Hv), Hd, Hg.
    unfold invoke. now rewrite Hs.
  - rewrite (handle_valid self data request Hv), Hd, Hg.
    now rewrite (invoke_call self f _ request _ args Hs), Hf.
  - rewrite (handle_valid self data request Hv), Hd, Hg.
    now rewrite (invoke_call self f _ request _ args Hs), Hf.
  - rewrite (handle_valid self data request Hv), Hd, Hg.
    now rewrite (invoke_call self f _ request _ args Hs), Hf.
  - rewrite (handle_valid self data request Hv), Hd, Hg.
    now rewrite (invoke_call self f _ request _ args Hs), Hf.
  - rewrite (handle_valid self data request Hv), Hd, Hg.
    rewrite (invoke_call self f _ request _ args Hs), Hf, Hlog.
    destruct e; try discriminate Hu; reflexivity.
  - rewrite (handle_valid self data request Hv), Hd, Hg.
    rewrite (invoke_call self f _ request _ args Hs), Hf, Hlog.
    destruct e; try discriminate Hu; now rewrite He.
  - rewrite (handle_valid self data request Hv), Hd, Hg.
    rewrite (invoke_call self f _ request _ args Hs), Hf, Hlog.
    destruct e; try discriminate Hu; now rewrite He.
Qed.

Lemma answers_fst (self : handler) (data : string)
  (out : outcome BaseResourceResponse) (log : list exception) :
  answers self data out log -> fst (handle_request self data) = out.
Proof. intros A. now rewrite (answers_handle_request self data out log A). Qed.

(** The method a call resolves to is an attribute of the handler under
    the name the request gives. *)
Lemma calls_getattr_self (self : handler) (data : string) (request : dict)
  (f : list value -> dict -> outcome returned) (args : list value) :
  calls self data request f args ->
  exists name, item request "method" = VStr name
               /\ getattr_self self name = Callable f.
Proof.
  intros (_ & Hg & _). unfold getattr_handler in Hg.
  destruct (item request "method") as [| | |name| |]; try discriminate Hg.
  now exists name.
Qed.

(** X1: given that the methods of the handler build their responses with
    [SuccessResponse], the answer is the parse error -32700 with a null
    identifier exactly when the text does not decode or decodes to an empty
    string, list or object. *)
Theorem parse_error_iff_undecodable_or_empty (self : handler) (data : string) :
  returns_constructed self ->
  fst (handle_request self data) = Returns (InvalidJSONError VNone)
  <-> (loads data = None \/ exists v, loads data = Some v /\ empty v = true).
Proof.
  intros Hrc. split.
  - intros E. pose proof (handle_request_answers self data) as A.
    rewrite E in A. clear E.
    remember (Returns (InvalidJSONError VNone)) as out eqn:Eo.
    destruct A as [Hl | v Hl Hv | v Hl Hv | v Hl Hv | request Hl Hne Hd
                  | request Hv Hd | request Hr Hs | request args Hr Hs Hg
                  | request f args v Hc Hf | request f args obj Hc Hf
                  | request f args Hc Hf | request f args code message Hc Hf
                  | request f args e Hc Hf Hu Hlog
                  | request f args e lg Hc Hf Hu Hlog He
                  | request f args e lg e' Hc Hf Hu Hlog He];
      try discriminate Eo; try (now left); try (right; now exists v).
    + destruct (calls_getattr_self self data request f args Hc)
        as (name & _ & Hg).
      destruct (Hrc name f args request obj Hg Hf) as (result & i & ->).
      discriminate Eo.
    + destruct code; discriminate Eo.
  - intros [Hl | (v & Hl & Hv)]; apply answers_fst with (log := []).
    + now apply answers_undecodable.
    + now apply (answers_empty self data v).
Qed.

(** X2: when the resolved method returns a plain value [v], the answer
    is the success response carrying [v] as result and the identifier of
    the request (null when the request has none), and the logger receives
    nothing. *)
Theorem plain_result_wrapped (self : handler) (data : string) (request : dict)
  (f : list value -> dict -> outcome returned) (args : list value) (v : value) :
  calls self data request f args ->
  f args request = Returns (Plain v) ->
  exists obj,
    handle_request self data = (Returns obj, [])
    /\ result_of obj = Some v
    /\ error_of obj = None
    /\ id obj = item request "id".
Proof.
  intros Hc Hf. exists (SuccessResponse v (item request "id")).
  split; [|now repeat split].
  now apply answers_handle_request, (answers_plain self data request f args).
Qed.

(** X3: a [SuccessResponse] the resolved method built itself is returned
    as it is: its identifier is the one the method gave it, not the one of
    the request. *)
Theorem built_response_passes_through (self : handler) (data : string)
  (request : dict) (f : list value -> dict -> outcome returned)
  (args : list value) (obj : BaseResourceResponse) :
  calls self data request f args ->
  f args request = Returns (Success obj) ->
  handle_request self data = (Returns obj, []).
Proof.
  intros Hc Hf.
  now apply answers_handle_request, (answers_built self data request f args).
Qed.

(** X4: a name that passes the resolution test but cannot be called, as
    the attribute is not callable or [params] is null, a boolean or a
    number, is answered with the error -32600 and the identifier of the
    request. *)
Theorem not_called_invalid_request (self : handler) (data : string)
  (request : dict) :
  resolves self data request ->
  getattr_handler self (item request "method") = NotCallable
  \/ unsized (item request "params") = true ->
  handle_request self data =
    (Returns (invalidRequestObjecError (item request "id")), []).
Proof.
  intros Hr Hn. apply answers_handle_request.
  destruct (star (item request "params")) as [args|e] eqn:Hs.
  - destruct Hn as [Hg|Hu].
    + now apply (answers_not_callable self data request args).
    + destruct (item request "params"); discriminate.
  - pose proof (star_raises _ _ Hs) as ->. now apply answers_not_unpacked.
Qed.

(** X5: when the resolved method raises a [BaseJSONRPCException] that has
    no [code] attribute, building the error response raises an
    [AttributeError], which leaves [handle_request]: no response comes
    back. *)
Theorem codeless_failure_propagates (self : handler) (data : string)
  (request : dict) (f : list value -> dict -> outcome returned)
  (args : list value) (message : value) :
  calls self data request f args ->
  f args request = Raises (BaseJSONRPCException None message) ->
  handle_request self data = (Raises AttributeError, []).
Proof.
  intros Hc Hf. apply answers_handle_request.
  exact (answers_declared self data request f args None message Hc Hf).
Qed.

(** X6: a valid request whose [method] field is missing or is not a
    string is answered with the error -32601 and the identifier of the
    request. *)
Theorem method_not_a_name_not_found (self : handler) (data : string)
  (request : dict) :
  valid_request data request ->
  (forall name, item request "method" <> VStr name) ->
  handle_request self data =
    (Returns (NonExistentMethodError (item request "id")), []).
Proof.
  intros Hv Hm. apply answers_handle_request, answers_not_found; [exact Hv|].
  destruct (item request "method") as [| | |name| |]; try reflexivity.
  now contradiction (Hm name).
Qed.

(** The names that pass the resolution test are the names of the
    handler that are neither defined by the mixin, nor inherited from
    [object], nor exposed by the protected companion object. *)
Lemma dispatchable_iff (self : handler) (name : string) :
  dispatchable self (VStr name) = true
  <-> In name (dir_self self)
      /\ ~ In name mixin_methods
      /\ ~ In name dir_object
      /\ ~ In name (dir_protected_handler self).
Proof.
  unfold dispatchable. rewrite andb_true_iff, negb_true_iff.
  rewrite member_In, member_not_In, in_app_iff.
  unfold dir_RequestHandlerMixin. rewrite In_sorted_set, in_app_iff.
  tauto.
Qed.

(** X7: given that the methods of the handler build their responses with
    [SuccessResponse], a valid request that names a method is answered
    with "Method not found" (-32601, carrying the identifier of the
    request) exactly when the name is not one of the handler, or is
    defined by the mixin, or is inherited from [object], or is exposed by
    the protected companion object. *)
Theorem method_not_found_iff_guarded_or_unknown
  (self : handler) (data : string) (request : dict) (name : string) :
  returns_constructed self ->
  valid_request data request ->
  item request "method" = VStr name ->
  fst (handle_request self data)
  = Returns (NonExistentMethodError (item request "id"))
  <-> (~ In name (dir_self self)
       \/ In name mixin_methods
       \/ In name dir_object
       \/ In name (dir_protected_handler self)).
Proof.
  intros Hrc Hv Hm.
  assert (dispatchable self (VStr name) = false
          <-> (~ In name (dir_self self)
               \/ In name mixin_methods
               \/ In name dir_object
               \/ In name (dir_protected_handler self))) as Hdec.
  { rewrite <- not_true_iff_false, dispatchable_iff. split; [|tauto].
    intros Hn.
    destruct (in_dec string_dec name (dir_self self)); [|now left].
    destruct (in_dec string_dec name mixin_methods); [right; now left|].
    destruct (in_dec string_dec name dir_object); [right; right; now left|].
    destruct (in_dec string_dec name (dir_protected_handler self));
      [now right; right; right|].
    exfalso. apply Hn. tauto. }
  rewrite <- Hdec. split.
  - intros E.
    destruct (dispatchable self (VStr name)) eqn:Hd; [exfalso|reflexivity].
    pose proof (handle_request_answers self data) as A.
    rewrite E in A. clear E.
    remember (Returns (NonExistentMethodError (item request "id")))
      as out eqn:Eo.
    destruct Hv as [Hl Hver].
    destruct A as [Hl' | v Hl' Hv | v Hl' Hv | v Hl' Hv | request' Hl' Hne Hd'
                  | request' [Hl' Hv'] Hd' | request' Hr Hs
                  | request' args Hr Hs Hg
                  | request' f args v Hc Hf | request' f args obj Hc Hf
                  | request' f args Hc Hf | request' f args code message Hc Hf
                  | request' f args e Hc Hf Hu Hlog
                  | request' f args e lg Hc Hf Hu Hlog He
                  | request' f args e lg e' Hc Hf Hu Hlog He];
      try discriminate Eo.
    + rewrite Hl in Hl'. injection Hl' as <-.
      rewrite Hm, Hd in Hd'. discriminate Hd'.
    + destruct (calls_getattr_self self data request' f args Hc)
        as (name' & _ & Hg).
      destruct (Hrc name' f args request' obj Hg Hf) as (result & i & ->).
      discriminate Eo.
    + destruct code; discriminate Eo.
  - intros Hd. apply answers_fst with (log := []).
    apply answers_not_found; [exact Hv | now rewrite Hm].
Qed.

(** X8: the answer depends on the attributes of the handler only under
    the names that pass the resolution test: two handlers with the same
    names, companion and logger that agree on those attributes answer
    alike, so a guarded method is never run. *)
Theorem only_dispatchable_methods_matter (self self' : handler) (data : string) :
  dir_self self = dir_self self' ->
  _get_protected_handler self = _get_protected_handler self' ->
  _logger self = _logger self' ->
  (forall name, dispatchable self (VStr name) = true ->
                getattr_self self name = getattr_self self' name) ->
  handle_request self data = handle_request self' data.
Proof.
  intros Hdir Hp Hlog Hg. unfold handle_request.
  destruct (loads data) as [v|]; [|reflexivity].
  unfold _validate_request.
  destruct (len v) as [n|e]; cbn [run]; [|reflexivity].
  destruct (Nat.ltb n 1); [reflexivity|].
  destruct (get v "jsonrpc") as [json_version|e]; cbn [run]; [|reflexivity].
  destruct (differs json_version RPC_VERSION); [reflexivity|].
  destruct (get v "method") as [method|e]; cbn [run]; [|reflexivity].
  destruct (get v "params") as [params|e]; cbn [run]; [|reflexivity].
  destruct (get v "id") as [request_id|e]; cbn [run]; [|reflexivity].
  fold (dispatchable self method). fold (dispatchable self' method).
  assert (dispatchable self' method = dispatchable self method) as ->.
  { unfold dispatchable, dir_protected_handler. now rewrite Hdir, Hp. }
  destruct (dispatchable self method) eqn:Hd; [|reflexivity].
  assert (getattr_handler self' method = getattr_handler self method) as ->.
  { destruct method as [| | |name| |]; try reflexivity.
    symmetry. now apply Hg. }
  unfold invoke. now rewrite Hlog.
Qed.

(** X9: the logger is notified at most once in a call, and only of an
    exception the resolved method raised that is neither a [TypeError] nor
    a [BaseJSONRPCException]. *)
Theorem logger_notified_of_undeclared_failure_only
  (self : handler) (data : string) :
  snd (handle_request self data) = []
  \/ exists request f args e exception_,
      calls self data request f args
      /\ f args request = Raises e
      /\ undeclared e = true
      /\ _logger self = Some exception_
      /\ snd (handle_request self data) = [e].
Proof.
  pose proof (handle_request_answers self data) as A.
  remember (fst (handle_request self data)) as out eqn:Eo.
  remember (snd (handle_request self data)) as log eqn:El.
  destruct A as [Hl | v Hl Hv | v Hl Hv | v Hl Hv | request Hl Hne Hd
                | request Hv Hd | request Hr Hs | request args Hr Hs Hg
                | request f args v Hc Hf | request f args obj Hc Hf
                | request f args Hc Hf | request f args code message Hc Hf
                | request f args e Hc Hf Hu Hlog
                | request f args e lg Hc Hf Hu Hlog He
                | request f args e lg e' Hc Hf Hu Hlog He];
    try (now left); right; exists request, f, args, e, lg;
    repeat (split; [assumption|]); reflexivity.
Qed.

(** X11: the identifier of a returned response is null, or the one of the
    valid request, or the one a method gave to the [SuccessResponse] it
    built. *)
Theorem response_id_origin (self : handler) (data : string)
  (obj : BaseResourceResponse) :
  fst (handle_request self data) = Returns obj ->
  id obj = VNone
  \/ (exists request, valid_request data request
                      /\ id obj = item request "id")
  \/ (exists request f args, calls self data request f args
                             /\ f args request = Returns (Success obj)).
Proof.
  intros E. pose proof (handle_request_answers self data) as A.
  rewrite E in A. clear E.
  remember (Returns obj) as out eqn:Eo.
  destruct A as [Hl | v Hl Hv | v Hl Hv | v Hl Hv | request Hl Hne Hd
                | request Hv Hd | request [Hv Hd] Hs
                | request args [Hv Hd] Hs Hg
                | request f args v Hc Hf | request f args obj' Hc Hf
                | request f args Hc Hf | request f args code message Hc Hf
                | request f args e Hc Hf Hu Hlog
                | request f args e lg Hc Hf Hu Hlog He
                | request f args e lg e' Hc Hf Hu Hlog He];
    try discriminate Eo;
    try (injection Eo as <-; now left);
    try (injection Eo as <-; right; left; exists request; now split).
  - injection Eo as <-. right; left. exists request.
    destruct Hc as [[Hv _] _]. now split.
  - injection Eo as <-. right; right. now exists request, f, args.
  - injection Eo as <-. right; left. exists request.
    destruct Hc as [[Hv _] _]. now split.
  - destruct code as [c|]; [|discriminate Eo]. injection Eo as <-.
    right; left. exists request. destruct Hc as [[Hv _] _]. now split.
  - injection Eo as <-. right; left. exists request.
    destruct Hc as [[Hv _] _]. now split.
  - injection Eo as <-. right; left. exists request.
    destruct Hc as [[Hv _] _]. now split.
Qed.

(** *** The encoder on any response *)

Lemma fold_default_Raises (obj : BaseResourceResponse) (fields : list string)
  (e : exception) :
  fold_left (default_step obj) fields (Raises e) = Raises e.
Proof. induction fields as [|a fields IH]; [reflexivity | exact IH]. Qed.

(** A field the test of the loop rejects is left as it was. *)
Lemma fold_default_step_rejected (obj : BaseResourceResponse)
  (fields : list string) (key : string) :
  sendable obj key = false ->
  forall response0 response,
    fold_left (default_step obj) fields (Returns response0) = Returns response ->
    lookup response key = lookup response0 key.
Proof.
  intros Hk. induction fields as [|a fields IH]; intros response0 response Hf.
  - now injection Hf as <-.
  - cbn [fold_left] in Hf. unfold default_step at 2 in Hf. cbn [bind] in Hf.
    destruct (sendable obj a) eqn:Ha.
    + destruct (getattr obj a) as [v|].
      * rewrite (IH _ _ Hf), lookup_setitem.
        destruct (String.eqb_spec a key) as [->|]; [congruence | reflexivity].
      * now rewrite fold_default_Raises in Hf.
    + exact (IH _ _ Hf).
Qed.

Lemma has_attribute_In (obj : BaseResourceResponse) (key : string) :
  has_attribute obj key = true <-> key = "id" \/ In key (keys (attrs obj)).
Proof.
  unfold has_attribute. rewrite orb_true_iff, String.eqb_eq, existsb_exists.
  split; intros [Hi|Hk]; auto; right.
  - destruct Hk as (x & Hx & E). apply String.eqb_eq in E. now subst.
  - exists key. split; [assumption | apply String.eqb_refl].
Qed.

(** X12: under an interpreter whose own attribute names are all private,
    [default] succeeds on every response, whatever attributes an extending
    class gave it, and the envelope holds exactly: each public attribute of
    the instance ([id] included) that is not listed in [_exclude], with its
    value; and the version tag under [jsonrpc], unless such an attribute
    has that name. *)
Theorem default_content (obj : BaseResourceResponse) :
  private_builtins = true ->
  exists response,
    default obj = Returns response
    /\ forall key,
        lookup response key =
          if sendable obj key && has_attribute obj key then getattr obj key
          else if key =? "jsonrpc" then Some (VStr RPC_VERSION)
          else None.
Proof.
  intros Hp. destruct (default_spec obj Hp) as (response & Hd & Hin & Hout).
  exists response. split; [exact Hd|]. intros key.
  assert (lookup [("jsonrpc", VStr RPC_VERSION)] key
          = if key =? "jsonrpc" then Some (VStr RPC_VERSION) else None) as Hinit.
  { cbn [lookup]. now rewrite String.eqb_sym. }
  destruct (sendable obj key) eqn:Hs; cbn [andb].
  - destruct (has_attribute obj key) eqn:Ha.
    + apply Hin; [now apply has_attribute_In | exact Hs].
    + rewrite <- Hinit. apply Hout.
      * intros ->. now rewrite (proj2 (has_attribute_In obj "id")) in Ha by now left.
      * intros Hk. now rewrite (proj2 (has_attribute_In obj key)) in Ha by now right.
  - rewrite <- Hinit.
    exact (fold_default_step_rejected obj (dir obj) key Hs _ _ Hd).
Qed.

(** X13: an attribute whose name starts with an underscore, or is listed
    in [_exclude], is never written: whenever [default] returns an
    envelope, it holds nothing under that name (the version tag, when the
    excluded name is [jsonrpc]). *)
Theorem private_or_excluded_never_sent (obj : BaseResourceResponse)
  (response : dict) (key : string) :
  default obj = Returns response ->
  startswith_underscore key = true \/ In key (_exclude obj) ->
  lookup response key =
    if key =? "jsonrpc" then Some (VStr RPC_VERSION) else None.
Proof.
  intros Hd Hk.
  assert (sendable obj key = false) as Hs.
  { unfold sendable. destruct Hk as [Hu|Hx].
    - now rewrite Hu.
    - apply andb_false_iff. right. apply negb_false_iff, existsb_exists.
      exists key. split; [assumption | apply String.eqb_refl]. }
  rewrite (fold_default_step_rejected obj (dir obj) key Hs _ _ Hd).
  cbn [lookup]. now rewrite String.eqb_sym.
Qed.

(** X14: end to end, for a valid request whose resolved method returns a
    plain value [v]: the text [str(self.handle_request(data))], read back
    by a codec that reads back what it wrote for the envelope, is an object
    with the version tag "2.0", the identifier of the request, [v] as
    [result] and no [error]. *)
Theorem respond_success (self : handler) (data : string) (request : dict)
  (f : list value -> dict -> outcome returned) (args : list value) (v : value) :
  private_builtins = true ->
  calls self data request f args ->
  f args request = Returns (Plain v) ->
  (forall response,
      default (SuccessResponse v (item request "id")) = Returns response ->
      roundtrips (VDict response)) ->
  exists text decoded,
    respond self data = Returns text
    /\ loads text = Some (VDict decoded)
    /\ lookup decoded "jsonrpc" = Some (VStr RPC_VERSION)
    /\ lookup decoded "id" = Some (item request "id")
    /\ lookup decoded "result" = Some v
    /\ lookup decoded "error" = None.
Proof.
  intros Hp Hc Hf Hrt.
  pose proof (answers_fst self data _ _
                (answers_plain self data request f args v Hc Hf)) as Hh.
  destruct (constructed_default (SuccessResponse v (item request "id")) Hp
              (constructed_SuccessResponse v (item request "id")))
    as (response & Hd & Hv & Hi & Hr & He).
  exists (dumps (VDict response)), response.
  split.
  { unfold respond. rewrite Hh. cbn [bind]. unfold __str__. now rewrite Hd. }
  split; [exact (Hrt response Hd)|]. now repeat split.
Qed.

End Coverage.

(* ================================================================== *)
(** ** The properties on concrete requests *)
(* ================================================================== *)

#[local] Existing Instance CPython27.

(** The runs of [src/tests/parsing/test_parsing.py] on the embedding. *)

Example test_errors_invalid_structure :
  handle_request tests.SimpleController (services.wire [("hi", VInt 1)])
  = (Returns (invalidRequestObjecError VNone), []).
Proof. reflexivity. Qed.

Example test_errors_invalid_method :
  handle_request tests.SimpleController
    (services.wire
       (services.request "update"
          [("params", VList [VInt 1; VInt 2; VInt 3; VInt 4; VInt 5])]))
  = (Returns (NonExistentMethodError VNone), []).
Proof. reflexivity. Qed.

Example test_method_call :
  handle_request tests.SimpleController
    (services.wire
       (services.request "echo" [("params", VList [VStr "HI"]); ("id", VInt 4)]))
  = (Returns (SuccessResponse (VStr "HI") (VInt 4)), []).
Proof. reflexivity. Qed.

Example test_raise_exception :
  fst (handle_request tests.SimpleController
         (services.wire
            (services.request "custom_exception"
               [("params", VList []); ("id", VInt 4)])))
  = CustomException tests.MyException (VInt 4).
Proof. reflexivity. Qed.

Example test_raise_internal_error :
  handle_request tests.SimpleController
    (services.wire
       (services.request "internal_error"
          [("params", VList []); ("id", VInt 4)]))
  = (Returns (InternalError (VInt 4)), []).
Proof. reflexivity. Qed.

(** The envelope of an error response, written out and read back. *)
Example InternalError_text :
  __str__ (InternalError (VInt 4))
  = Returns (services.wire
               [("jsonrpc", VStr "2.0");
                ("error", error_object (VInt (-32603)) (VStr "Internal error."));
                ("id", VInt 4)]).
Proof. reflexivity. Qed.

(** *** The claims on concrete requests *)

(** The text [null] on the controller of the test suite. *)
Lemma unsized_payload_propagates_witness :
  loads "null" = Some VNone
  /\ handle_request tests.SimpleController "null" = (Raises TypeError, []).
Proof.
  split; [reflexivity|].
  apply (unsized_payload_propagates tests.SimpleController "null" VNone);
    [reflexivity | now left].
Defined.

(** C2 fails on the empty object: the text of [{}] decodes, is not a
    non-empty object, and is answered with code -32700, not -32600. *)
Lemma empty_object_is_parse_error :
  ~ (forall (rt : Runtime) (self : handler) (data : string) (request : dict),
        @loads rt data = Some (VDict request) ->
        request = [] \/ item request "jsonrpc" <> VStr RPC_VERSION ->
        exists obj log message,
          @handle_request rt self data = (Returns obj, log)
          /\ error_of obj = Some (VInt (-32600), message)
          /\ id obj = VNone).
Proof.
  intros claim.
  destruct (claim CPython27 tests.SimpleController "{}" []
              eq_refl (or_introl eq_refl))
    as (obj & log & message & Hh & He & _).
  vm_compute in Hh. injection Hh as <- _. discriminate He.
Qed.

(** The object [{hi: 1}] of the test suite, which has no version tag. *)
Lemma invalid_object_codes_witness :
  loads (services.wire [("hi", VInt 1)]) = Some (VDict [("hi", VInt 1)])
  /\ item [("hi", VInt 1)] "jsonrpc" <> VStr RPC_VERSION
  /\ handle_request tests.SimpleController (services.wire [("hi", VInt 1)])
     = (Returns (invalidRequestObjecError VNone), []).
Proof.
  split; [reflexivity|]. split; [discriminate|].
  apply (invalid_object_codes tests.SimpleController
           (services.wire [("hi", VInt 1)]) [("hi", VInt 1)]);
    [reflexivity | discriminate].
Defined.

(** C3 fails on a request for [ping], a method of no positional
    argument, sent without [params]: the answer is the error -32600, not
    the success carrying "pong". *)
Lemma absent_params_not_empty :
  ~ (forall (rt : Runtime) (self : handler) (data : string) (request : dict)
            (f : list value -> dict -> outcome returned) (v : value),
        @valid_request rt data request ->
        lookup request "params" = None ->
        @dispatchable rt self (item request "method") = true ->
        getattr_handler self (item request "method") = Callable f ->
        f [] request = Returns (Plain v) ->
        @handle_request rt self data
        = (Returns (SuccessResponse v (item request "id")), [])).
Proof.
  intros claim.
  specialize (claim CPython27 services.Service
                (services.wire (services.request "ping" [("id", VInt 7)]))
                (services.request "ping" [("id", VInt 7)])
                services.ping (VStr "pong")).
  assert (valid_request
            (services.wire (services.request "ping" [("id", VInt 7)]))
            (services.request "ping" [("id", VInt 7)])) as Hv
    by (split; reflexivity).
  specialize (claim Hv eq_refl eq_refl eq_refl eq_refl).
  vm_compute in claim. discriminate claim.
Qed.

(** A request for [ping] that carries no [params]. *)
Lemma absent_params_invalid_request_witness :
  valid_request (services.wire (services.request "ping" [("id", VInt 7)]))
    (services.request "ping" [("id", VInt 7)])
  /\ lookup (services.request "ping" [("id", VInt 7)]) "params" = None
  /\ dispatchable services.Service (VStr "ping") = true
  /\ handle_request services.Service
       (services.wire (services.request "ping" [("id", VInt 7)]))
     = (Returns (invalidRequestObjecError (VInt 7)), []).
Proof.
  split; [split; reflexivity|]. split; [reflexivity|]. split; [reflexivity|].
  apply (absent_params_invalid_request services.Service
           (services.wire (services.request "ping" [("id", VInt 7)]))
           (services.request "ping" [("id", VInt 7)]));
    [split; reflexivity | reflexivity | reflexivity].
Defined.

(** The guarded call of the test suite: [handle_request] named as the
    method, on a controller that exposes the name. *)
Lemma guarded_or_unknown_method_not_found_witness :
  valid_request
    (services.wire (services.request "handle_request" [("params", VStr "123")]))
    (services.request "handle_request" [("params", VStr "123")])
  /\ In "handle_request" (dir_self tests.SimpleController)
  /\ In "handle_request" mixin_methods
  /\ handle_request tests.SimpleController
       (services.wire (services.request "handle_request" [("params", VStr "123")]))
     = (Returns (NonExistentMethodError VNone), []).
Proof.
  split; [split; reflexivity|].
  split; [vm_compute; tauto|].
  split; [simpl; tauto|].
  apply (guarded_or_unknown_method_not_found tests.SimpleController
           (services.wire
              (services.request "handle_request" [("params", VStr "123")]))
           (services.request "handle_request" [("params", VStr "123")])
           "handle_request");
    [split; reflexivity | reflexivity | left; simpl; tauto].
Defined.

(** The method of the test suite that raises [MyException], whose code is 1. *)
Lemma declared_failure_reported_witness :
  valid_request
    (services.wire
       (services.request "custom_exception" [("params", VList []); ("id", VInt 4)]))
    (services.request "custom_exception" [("params", VList []); ("id", VInt 4)])
  /\ exists obj,
      handle_request tests.SimpleController
        (services.wire
           (services.request "custom_exception"
              [("params", VList []); ("id", VInt 4)]))
      = (Returns obj, [])
      /\ error_of obj = Some (VInt 1, VStr "My Custom Exception")
      /\ result_of obj = None
      /\ id obj = VInt 4.
Proof.
  split; [split; reflexivity|].
  apply (declared_failure_reported tests.SimpleController
           (services.wire
              (services.request "custom_exception"
                 [("params", VList []); ("id", VInt 4)]))
           (services.request "custom_exception"
              [("params", VList []); ("id", VInt 4)])
           tests.custom_exception [] 1 (VStr "My Custom Exception"));
    [split; reflexivity | reflexivity | reflexivity | reflexivity | reflexivity].
Defined.

(** C6 fails on a controller whose logger raises an [AttributeError]
    when it is notified: the method raises [Exception], the notification
    raises in its turn, and no response comes back. *)
Lemma internal_error_needs_quiet_logger :
  ~ (forall (rt : Runtime) (self : handler) (data : string) (request : dict)
            (f : list value -> dict -> outcome returned) (args : list value)
            (e : exception),
        @valid_request rt data request ->
        @dispatchable rt self (item request "method") = true ->
        getattr_handler self (item request "method") = Callable f ->
        star (item request "params") = Returns args ->
        f args request = Raises e ->
        e <> TypeError ->
        (forall c m, e <> BaseJSONRPCException c m) ->
        exists log,
          @handle_request rt self data
          = (Returns (InternalError (item request "id")), log)).
Proof.
  intros claim.
  assert (valid_request
            (services.wire
               (services.request "internal_error"
                  [("params", VList []); ("id", VInt 4)]))
            (services.request "internal_error"
               [("params", VList []); ("id", VInt 4)])) as Hv
    by (split; reflexivity).
  destruct (claim CPython27
              (services.with_logger (@tests.SimpleController CPython27)
                 services.faulty)
              _ _ tests.internal_error [] (Exception "Exception")
              Hv ltac:(reflexivity) ltac:(reflexivity) ltac:(reflexivity)
              ltac:(reflexivity) ltac:(discriminate) ltac:(discriminate))
    as (log & Hh).
  vm_compute in Hh. discriminate Hh.
Qed.

(** The method of the test suite that raises [Exception], on a controller
    whose logger records the notification. *)
Lemma undeclared_failure_internal_error_witness :
  valid_request
    (services.wire
       (services.request "internal_error" [("params", VList []); ("id", VInt 4)]))
    (services.request "internal_error" [("params", VList []); ("id", VInt 4)])
  /\ _logger (services.with_logger tests.SimpleController services.recording)
     = Some services.recording
  /\ fst (handle_request
            (services.with_logger tests.SimpleController services.recording)
            (services.wire
               (services.request "internal_error"
                  [("params", VList []); ("id", VInt 4)])))
     = Returns (InternalError (VInt 4)).
Proof.
  split; [split; reflexivity|]. split; [reflexivity|].
  apply (undeclared_failure_internal_error
           (services.with_logger tests.SimpleController services.recording)
           (services.wire
              (services.request "internal_error"
                 [("params", VList []); ("id", VInt 4)]))
           (services.request "internal_error"
              [("params", VList []); ("id", VInt 4)])
           tests.internal_error [] (Exception "Exception"));
    try reflexivity; try discriminate.
  - split; reflexivity.
  - intros exception_ [= <-]. reflexivity.
Defined.

(** C7 fails on a controller whose logger raises when notified: the
    failure of the logger comes out of [handle_request], the -32603
    response does not. *)
Lemma logger_failure_not_contained :
  ~ (forall (rt : Runtime) (self : handler) (data : string) (request : dict)
            (f : list value -> dict -> outcome returned) (args : list value)
            (e e' : exception) (exception_ : exception -> outcome unit),
        @valid_request rt data request ->
        @dispatchable rt self (item request "method") = true ->
        getattr_handler self (item request "method") = Callable f ->
        star (item request "params") = Returns args ->
        f args request = Raises e ->
        e <> TypeError ->
        (forall c m, e <> BaseJSONRPCException c m) ->
        _logger self = Some exception_ ->
        exception_ e = Raises e' ->
        exists log,
          @handle_request rt self data
          = (Returns (InternalError (item request "id")), log)).
Proof.
  intros claim.
  assert (valid_request
            (services.wire
               (services.request "internal_error"
                  [("params", VList []); ("id", VInt 4)]))
            (services.request "internal_error"
               [("params", VList []); ("id", VInt 4)])) as Hv
    by (split; reflexivity).
  destruct (claim CPython27
              (services.with_logger (@tests.SimpleController CPython27)
                 services.closed)
              _ _ tests.internal_error [] (Exception "Exception")
              (Exception "ValueError") services.closed
              Hv ltac:(reflexivity) ltac:(reflexivity) ltac:(reflexivity)
              ltac:(reflexivity) ltac:(discriminate) ltac:(discriminate)
              ltac:(reflexivity) ltac:(reflexivity))
    as (log & Hh).
  vm_compute in Hh. discriminate Hh.
Qed.

(** The same method on a controller whose logger raises. *)
Lemma logger_failure_propagates_witness :
  valid_request
    (services.wire
       (services.request "internal_error" [("params", VList []); ("id", VInt 4)]))
    (services.request "internal_error" [("params", VList []); ("id", VInt 4)])
  /\ services.closed (Exception "Exception") = Raises (Exception "ValueError")
  /\ handle_request
       (services.with_logger tests.SimpleController services.closed)
       (services.wire
          (services.request "internal_error"
             [("params", VList []); ("id", VInt 4)]))
     = (Raises (Exception "ValueError"), [Exception "Exception"]).
Proof.
  split; [split; reflexivity|]. split; [reflexivity|].
  apply (logger_failure_propagates
           (services.with_logger tests.SimpleController services.closed)
           (services.wire
              (services.request "internal_error"
                 [("params", VList []); ("id", VInt 4)]))
           (services.request "internal_error"
              [("params", VList []); ("id", VInt 4)])
           tests.internal_error [] (Exception "Exception")
           (Exception "ValueError") services.closed);
    try reflexivity; try discriminate.
  split; reflexivity.
Defined.

(** A method whose body raises a [TypeError], on a service with a logger. *)
Lemma body_TypeError_invalid_request_witness :
  valid_request
    (services.wire
       (services.request "total" [("params", VList []); ("id", VInt 5)]))
    (services.request "total" [("params", VList []); ("id", VInt 5)])
  /\ services.total [] (services.request "total"
                          [("params", VList []); ("id", VInt 5)])
     = Raises TypeError
  /\ handle_request
       (services.with_logger services.Service services.recording)
       (services.wire
          (services.request "total" [("params", VList []); ("id", VInt 5)]))
     = (Returns (invalidRequestObjecError (VInt 5)), []).
Proof.
  split; [split; reflexivity|]. split; [reflexivity|].
  apply (body_TypeError_invalid_request
           (services.with_logger services.Service services.recording)
           (services.wire
              (services.request "total" [("params", VList []); ("id", VInt 5)]))
           (services.request "total" [("params", VList []); ("id", VInt 5)])
           services.total []);
    try reflexivity.
  split; reflexivity.
Defined.

(** The service builds its answer with [SuccessResponse]. *)
Lemma Service_returns_constructed : returns_constructed services.Service.
Proof.
  intros name f args kwargs obj Hg Hc. cbn [services.Service getattr_self] in Hg.
  destruct (name =? "ping").
  { injection Hg as <-. unfold services.ping in Hc.
    destruct args; [destruct (tests.clashes kwargs _)|]; discriminate Hc. }
  destruct (name =? "status").
  { injection Hg as <-. unfold services.status in Hc.
    destruct args; [destruct (tests.clashes kwargs _)|]; try discriminate Hc.
    injection Hc as <-. eauto. }
  destruct (name =? "total"); [|discriminate Hg].
  injection Hg as <-. discriminate Hc.
Qed.

(** A request for [status], a method that hands back its own
    [SuccessResponse]. *)
Lemma response_carries_one_payload_witness :
  private_builtins = true
  /\ returns_constructed services.Service
  /\ handle_request services.Service
       (services.wire
          (services.request "status" [("params", VList []); ("id", VInt 4)]))
     = (Returns (SuccessResponse (VStr "ok") (VInt 9)), [])
  /\ exists response,
      default (SuccessResponse (VStr "ok") (VInt 9)) = Returns response
      /\ envelope response (VInt 9).
Proof.
  split; [reflexivity|]. split; [exact Service_returns_constructed|].
  split; [reflexivity|].
  apply (response_carries_one_payload services.Service
           (services.wire
              (services.request "status" [("params", VList []); ("id", VInt 4)]))
           (SuccessResponse (VStr "ok") (VInt 9)) []);
    [reflexivity | exact Service_returns_constructed | reflexivity].
Defined.


(** *** The further properties on concrete requests *)

(** The controller of the test suite hands back plain values only. *)
Lemma SimpleController_returns_constructed :
  returns_constructed tests.SimpleController.
Proof.
  intros name f args kwargs obj Hg Hc.
  cbn [tests.SimpleController getattr_self] in Hg.
  destruct (name =? "echo").
  { injection Hg as <-. unfold tests.echo in Hc.
    destruct args as [|a [|b args]]; try discriminate Hc.
    destruct (tests.clashes kwargs _); discriminate Hc. }
  destruct (name =? "custom_exception").
  { injection Hg as <-. unfold tests.custom_exception in Hc.
    destruct args; [destruct (tests.clashes kwargs _)|]; discriminate Hc. }
  destruct (name =? "internal_error"); [|discriminate Hg].
  injection Hg as <-. unfold tests.internal_error in Hc.
  destruct args; [destruct (tests.clashes kwargs _)|]; discriminate Hc.
Qed.

(** The empty object on the controller of the test suite. *)
Lemma parse_error_iff_undecodable_or_empty_witness :
  returns_constructed tests.SimpleController
  /\ (fst (handle_request tests.SimpleController "{}")
      = Returns (InvalidJSONError VNone)
      <-> (loads "{}" = None
           \/ exists v, loads "{}" = Some v /\ empty v = true)).
Proof.
  split; [exact SimpleController_returns_constructed|].
  apply (parse_error_iff_undecodable_or_empty
           (@tests.SimpleController CPython27) "{}").
  exact SimpleController_returns_constructed.
Defined.

(** The [echo] call of the test suite, sent without an identifier. *)
Lemma plain_result_wrapped_witness :
  calls tests.SimpleController
    (services.wire (services.request "echo" [("params", VList [VStr "HI"])]))
    (services.request "echo" [("params", VList [VStr "HI"])])
    tests.echo [VStr "HI"]
  /\ exists obj,
      handle_request tests.SimpleController
        (services.wire (services.request "echo" [("params", VList [VStr "HI"])]))
      = (Returns obj, [])
      /\ result_of obj = Some (VStr "HI")
      /\ error_of obj = None
      /\ id obj = VNone.
Proof.
  assert (calls (@tests.SimpleController CPython27)
            (services.wire
               (services.request "echo" [("params", VList [VStr "HI"])]))
            (services.request "echo" [("params", VList [VStr "HI"])])
            tests.echo [VStr "HI"]) as Hc
    by (repeat split; reflexivity).
  split; [exact Hc|].
  exact (plain_result_wrapped (@tests.SimpleController CPython27) _ _ _ _
           (VStr "HI") Hc eq_refl).
Defined.

(** A request with identifier 4 for [status], whose response carries the
    identifier 9. *)
Lemma built_response_passes_through_witness :
  calls services.Service
    (services.wire
       (services.request "status" [("params", VList []); ("id", VInt 4)]))
    (services.request "status" [("params", VList []); ("id", VInt 4)])
    services.status []
  /\ handle_request services.Service
       (services.wire
          (services.request "status" [("params", VList []); ("id", VInt 4)]))
     = (Returns (SuccessResponse (VStr "ok") (VInt 9)), [])
  /\ id (SuccessResponse (VStr "ok") (VInt 9)) <> VInt 4.
Proof.
  assert (calls (@services.Service CPython27)
            (services.wire
               (services.request "status" [("params", VList []); ("id", VInt 4)]))
            (services.request "status" [("params", VList []); ("id", VInt 4)])
            services.status []) as Hc
    by (repeat split; reflexivity).
  split; [exact Hc|]. split; [|discriminate].
  exact (built_response_passes_through (@services.Service CPython27) _ _ _ _
           (SuccessResponse (VStr "ok") (VInt 9)) Hc eq_refl).
Defined.

(** A request that names the data attribute [version] of a controller. *)
Lemma not_called_invalid_request_witness :
  resolves extensions.Plain_data
    (services.wire
       (services.request "version" [("params", VList []); ("id", VInt 2)]))
    (services.request "version" [("params", VList []); ("id", VInt 2)])
  /\ handle_request extensions.Plain_data
       (services.wire
          (services.request "version" [("params", VList []); ("id", VInt 2)]))
     = (Returns (invalidRequestObjecError (VInt 2)), []).
Proof.
  assert (resolves (@extensions.Plain_data CPython27)
            (services.wire
               (services.request "version" [("params", VList []); ("id", VInt 2)]))
            (services.request "version" [("params", VList []); ("id", VInt 2)]))
    as Hr by (repeat split; reflexivity).
  split; [exact Hr|].
  exact (not_called_invalid_request (@extensions.Plain_data CPython27) _ _ Hr
           (or_introl eq_refl)).
Defined.

(** A method that raises the base exception class, which has no [code]. *)
Lemma codeless_failure_propagates_witness :
  calls extensions.Plain_data
    (services.wire
       (services.request "fail" [("params", VList []); ("id", VInt 2)]))
    (services.request "fail" [("params", VList []); ("id", VInt 2)])
    extensions.fail []
  /\ handle_request extensions.Plain_data
       (services.wire
          (services.request "fail" [("params", VList []); ("id", VInt 2)]))
     = (Raises AttributeError, []).
Proof.
  assert (calls (@extensions.Plain_data CPython27)
            (services.wire
               (services.request "fail" [("params", VList []); ("id", VInt 2)]))
            (services.request "fail" [("params", VList []); ("id", VInt 2)])
            extensions.fail []) as Hc
    by (repeat split; reflexivity).
  split; [exact Hc|].
  exact (codeless_failure_propagates (@extensions.Plain_data CPython27) _ _ _ _
           (VStr EmptyString) Hc eq_refl).
Defined.

(** A request object with a version tag and an identifier, but no
    [method]. *)
Lemma method_not_a_name_not_found_witness :
  valid_request
    (services.wire [("jsonrpc", VStr "2.0"); ("id", VInt 3)])
    [("jsonrpc", VStr "2.0"); ("id", VInt 3)]
  /\ handle_request tests.SimpleController
       (services.wire [("jsonrpc", VStr "2.0"); ("id", VInt 3)])
     = (Returns (NonExistentMethodError (VInt 3)), []).
Proof.
  assert (valid_request
            (services.wire [("jsonrpc", VStr "2.0"); ("id", VInt 3)])
            [("jsonrpc", VStr "2.0"); ("id", VInt 3)]) as Hv
    by (split; reflexivity).
  split; [exact Hv|].
  apply (method_not_a_name_not_found (@tests.SimpleController CPython27) _ _ Hv).
  intros name. discriminate.
Defined.

(** The controller of the test suite and the one that defines
    [handle_request] itself answer the guarded call alike. *)
Lemma only_dispatchable_methods_matter_witness :
  (forall name,
      dispatchable tests.SimpleController (VStr name) = true ->
      getattr_self tests.SimpleController name
      = getattr_self extensions.Shadowing name)
  /\ handle_request tests.SimpleController
       (services.wire
          (services.request "handle_request" [("params", VStr "123")]))
     = handle_request extensions.Shadowing
         (services.wire
            (services.request "handle_request" [("params", VStr "123")])).
Proof.
  assert (forall name,
             dispatchable (@tests.SimpleController CPython27) (VStr name) = true ->
             getattr_self (@tests.SimpleController CPython27) name
             = getattr_self (@extensions.Shadowing CPython27) name) as Hg.
  { intros name Hd. cbn [extensions.Shadowing getattr_self].
    destruct (String.eqb_spec name "handle_request") as [->|]; [|reflexivity].
    vm_compute in Hd. discriminate Hd. }
  split; [exact Hg|].
  exact (only_dispatchable_methods_matter (@tests.SimpleController CPython27)
           (@extensions.Shadowing CPython27) _ eq_refl eq_refl eq_refl Hg).
Defined.

(** The [echo] call of the test suite: the identifier is the one of the
    request. *)
Lemma response_id_origin_witness :
  fst (handle_request tests.SimpleController
         (services.wire
            (services.request "echo"
               [("params", VList [VStr "HI"]); ("id", VInt 4)])))
  = Returns (SuccessResponse (VStr "HI") (VInt 4))
  /\ (id (SuccessResponse (VStr "HI") (VInt 4)) = VNone
      \/ (exists request,
             valid_request
               (services.wire
                  (services.request "echo"
                     [("params", VList [VStr "HI"]); ("id", VInt 4)]))
               request
             /\ id (SuccessResponse (VStr "HI") (VInt 4)) = item request "id")
      \/ (exists request f args,
             calls tests.SimpleController
               (services.wire
                  (services.request "echo"
                     [("params", VList [VStr "HI"]); ("id", VInt 4)]))
               request f args
             /\ f args request
                = Returns (Success (SuccessResponse (VStr "HI") (VInt 4))))).
Proof.
  split; [reflexivity|].
  apply (response_id_origin (@tests.SimpleController CPython27)).
  reflexivity.
Defined.

(** The envelope of a response of an extending class: [page] is written,
    [cursor] is excluded and [_cache] is private. *)
Lemma default_content_witness :
  private_builtins = true
  /\ exists response,
      default (extensions.Paged (VStr "HI") (VInt 4)) = Returns response
      /\ forall key,
          lookup response key =
            if sendable (extensions.Paged (VStr "HI") (VInt 4)) key
               && has_attribute (extensions.Paged (VStr "HI") (VInt 4)) key
            then getattr (extensions.Paged (VStr "HI") (VInt 4)) key
            else if key =? "jsonrpc" then Some (VStr RPC_VERSION) else None.
Proof.
  split; [reflexivity|].
  exact (default_content (extensions.Paged (VStr "HI") (VInt 4)) eq_refl).
Defined.

(** The same response: nothing is written under the excluded [cursor]. *)
Lemma private_or_excluded_never_sent_witness :
  default (extensions.Paged (VStr "HI") (VInt 4))
  = Returns [("jsonrpc", VStr "2.0"); ("id", VInt 4); ("page", VInt 2);
             ("result", VStr "HI")]
  /\ In "cursor" (_exclude (extensions.Paged (VStr "HI") (VInt 4)))
  /\ lookup [("jsonrpc", VStr "2.0"); ("id", VInt 4); ("page", VInt 2);
             ("result", VStr "HI")] "cursor" = None.
Proof.
  split; [reflexivity|]. split; [now left|].
  exact (private_or_excluded_never_sent
           (extensions.Paged (VStr "HI") (VInt 4)) _ "cursor"
           eq_refl (or_intror (or_introl eq_refl))).
Defined.

(** The [echo] call of the test suite, answered, written and read back. *)
Lemma respond_success_witness :
  private_builtins = true
  /\ calls tests.SimpleController
       (services.wire
          (services.request "echo"
             [("params", VList [VStr "HI"]); ("id", VInt 4)]))
       (services.request "echo" [("params", VList [VStr "HI"]); ("id", VInt 4)])
       tests.echo [VStr "HI"]
  /\ exists text decoded,
      respond tests.SimpleController
        (services.wire
           (services.request "echo"
              [("params", VList [VStr "HI"]); ("id", VInt 4)]))
      = Returns text
      /\ loads text = Some (VDict decoded)
      /\ lookup decoded "jsonrpc" = Some (VStr RPC_VERSION)
      /\ lookup decoded "id" = Some (VInt 4)
      /\ lookup decoded "result" = Some (VStr "HI")
      /\ lookup decoded "error" = None.
Proof.
  assert (calls (@tests.SimpleController CPython27)
            (services.wire
               (services.request "echo"
                  [("params", VList [VStr "HI"]); ("id", VInt 4)]))
            (services.request "echo"
               [("params", VList [VStr "HI"]); ("id", VInt 4)])
            tests.echo [VStr "HI"]) as Hc
    by (repeat split; reflexivity).
  split; [reflexivity|]. split; [exact Hc|].
  apply (respond_success (H := CPython27) (@tests.SimpleController CPython27)
           (services.wire
              (services.request "echo"
                 [("params", VList [VStr "HI"]); ("id", VInt 4)]))
           (services.request "echo"
              [("params", VList [VStr "HI"]); ("id", VInt 4)])
           tests.echo [VStr "HI"] (VStr "HI"));
    [reflexivity | exact Hc | reflexivity |].
  intros response Hd. vm_compute in Hd. injection Hd as <-. reflexivity.
Defined.

(** *** The revised entries on concrete requests *)

(** C8 fails on a controller whose method hands back a response of an
    extending class that excludes [result]: the response is passed through
    as it is, and its envelope carries neither [result] nor [error].  (One
    that also sets [error] is written with both.) *)
Lemma passed_through_response_breaks_envelope :
  ~ (forall (rt : Runtime) (self : handler) (data : string)
            (obj : BaseResourceResponse) (log : list exception),
        @private_builtins rt = true ->
        @handle_request rt self data = (Returns obj, log) ->
        exists response,
          @default rt obj = Returns response /\ envelope response (id obj)).
Proof.
  intros claim.
  destruct (claim CPython27 (@extensions.Extending CPython27)
              (services.wire
                 (services.request "silent"
                    [("params", VList []); ("id", VInt 4)]))
              (extensions.Silent (VStr "ok") (VInt 9)) []
              ltac:(reflexivity) ltac:(reflexivity))
    as (response & Hd & _ & _ & [[Hr _]|[_ He]]).
  - vm_compute in Hd. injection Hd as <-. now apply Hr.
  - vm_compute in Hd. injection Hd as <-. now apply He.
Qed.

(** A passed-through response that sets [error] next to [result] is
    written with both fields. *)
Example Failed_envelope_has_both :
  handle_request extensions.Extending
    (services.wire
       (services.request "failed" [("params", VList []); ("id", VInt 4)]))
  = (Returns (extensions.Failed (VStr "ok") (VInt 9)), [])
  /\ default (extensions.Failed (VStr "ok") (VInt 9))
     = Returns [("jsonrpc", VStr "2.0");
                ("error", error_object (VInt 7) (VStr "late"));
                ("id", VInt 9); ("result", VStr "ok")].
Proof. split; reflexivity. Qed.

(** The unknown method [update] and the guarded [handle_request] of the
    test suite. *)
Lemma method_not_found_iff_guarded_or_unknown_witness :
  returns_constructed tests.SimpleController
  /\ valid_request
       (services.wire
          (services.request "update"
             [("params", VList [VInt 1; VInt 2; VInt 3; VInt 4; VInt 5])]))
       (services.request "update"
          [("params", VList [VInt 1; VInt 2; VInt 3; VInt 4; VInt 5])])
  /\ (fst (handle_request tests.SimpleController
             (services.wire
                (services.request "update"
                   [("params", VList [VInt 1; VInt 2; VInt 3; VInt 4; VInt 5])])))
      = Returns (NonExistentMethodError VNone)
      <-> (~ In "update" (dir_self tests.SimpleController)
           \/ In "update" mixin_methods
           \/ In "update" dir_object
           \/ In "update" (dir_protected_handler tests.SimpleController))).
Proof.
  assert (valid_request
            (services.wire
               (services.request "update"
                  [("params", VList [VInt 1; VInt 2; VInt 3; VInt 4; VInt 5])]))
            (services.request "update"
               [("params", VList [VInt 1; VInt 2; VInt 3; VInt 4; VInt 5])]))
    as Hv by (split; reflexivity).
  split; [exact SimpleController_returns_constructed|]. split; [exact Hv|].
  exact (method_not_found_iff_guarded_or_unknown
           (@tests.SimpleController CPython27) _ _ "update"
           SimpleController_returns_constructed Hv eq_refl).
Defined.

(** The text of the list [[1]]. *)
Lemma sequence_payload_propagates_witness :
  loads "[1]" = Some (VList [VInt 1])
  /\ handle_request tests.SimpleController "[1]" = (Raises AttributeError, []).
Proof.
  split; [reflexivity|].
  apply (sequence_payload_propagates (@tests.SimpleController CPython27)
           "[1]" (VList [VInt 1])); [reflexivity|].
  right. now exists (VInt 1), [].
Defined.
